(** * Active_Student_ETL: the reconciliation pass of [main.py]

    A shallow embedding of the student-roster ETL: the field cleaners of
    [utils.py] (and their siblings in [sync_students.py] and
    [active_student_data_yearly.py]), the validator, the store operations of
    [database.py] and the batch loop of [main.py].

    Conventions of the model.
    - A Python [str] is a [string] of ASCII characters; the character classes
      ([\s], [\w], [[A-Za-z]], [str.upper], [str.title]) are the ASCII ones.
    - A JSON value is [None], an integer or a string ([pyval]); a raw record
      is a [gmap] from field names to such values.
    - An uncaught Python exception is [Raise]; a function that can raise
      returns a [result].
    - The MySQL table [active_student_data] is a finite map from [unique_key]
      to a row (the column carries a UNIQUE constraint, so an INSERT on a
      present key is error 1062); a column holds NULL or text ([sql]).
      [student_data_history] is the list of the rows appended to it.
    - [datetime.now()] is a parameter [now] of the operation that reads it. *)

From Stdlib Require Import ZArith Ascii String List Lia.
From stdpp Require Import base tactics option list strings pretty gmap fin_maps fin_sets.

Local Open Scope string_scope.

(** ** Python strings *)

Module PyStr.

Definition code (c : ascii) : nat := nat_of_ascii c.

(** [str.isspace] and the class [\s] on ASCII: TAB..CR, FS..US and space. *)
Definition is_space (c : ascii) : bool :=
  let n := code c in
  (Nat.leb 9 n && Nat.leb n 13) || (Nat.leb 28 n && Nat.leb n 32).

Definition is_upper (c : ascii) : bool :=
  let n := code c in Nat.leb 65 n && Nat.leb n 90.

Definition is_lower (c : ascii) : bool :=
  let n := code c in Nat.leb 97 n && Nat.leb n 122.

Definition is_digit (c : ascii) : bool :=
  let n := code c in Nat.leb 48 n && Nat.leb n 57.

(** The class [[A-Za-z]]. *)
Definition is_alpha (c : ascii) : bool := is_upper c || is_lower c.

(** The class [\w]: letters, digits and the underscore. *)
Definition is_word (c : ascii) : bool :=
  is_alpha c || is_digit c || Nat.eqb (code c) 95.

Definition upper_char (c : ascii) : ascii :=
  if is_lower c then ascii_of_nat (code c - 32) else c.

Definition lower_char (c : ascii) : ascii :=
  if is_upper c then ascii_of_nat (code c + 32) else c.

Fixpoint map (f : ascii -> ascii) (s : string) : string :=
  match s with
  | EmptyString => EmptyString
  | String c r => String (f c) (map f r)
  end.

(** [s.upper()] *)
Definition upper (s : string) : string := map upper_char s.

Fixpoint all_space (s : string) : bool :=
  match s with
  | EmptyString => true
  | String c r => is_space c && all_space r
  end.

(** [s.lstrip()] *)
Fixpoint lstrip (s : string) : string :=
  match s with
  | EmptyString => EmptyString
  | String c r => if is_space c then lstrip r else s
  end.

(** [s.rstrip()] *)
Fixpoint rstrip (s : string) : string :=
  match s with
  | EmptyString => EmptyString
  | String c r => if all_space s then EmptyString else String c (rstrip r)
  end.

(** [s.strip()] *)
Definition strip (s : string) : string := rstrip (lstrip s).

(** [re.sub(r'\s+', ' ', s)]: every maximal run of white space becomes one
    space; [in_run] tells whether the run the character belongs to has
    already been replaced. *)
Fixpoint collapse_from (in_run : bool) (s : string) : string :=
  match s with
  | EmptyString => EmptyString
  | String c r =>
      if is_space c
      then if in_run then collapse_from true r
           else String " "%char (collapse_from true r)
      else String c (collapse_from false r)
  end.

Definition collapse_spaces (s : string) : string := collapse_from false s.

(** [s.title()]: a letter that follows a letter is lowered, any other
    letter is raised; [prev] tells whether the previous character was a
    letter. *)
Fixpoint title_from (prev : bool) (s : string) : string :=
  match s with
  | EmptyString => EmptyString
  | String c r =>
      if is_alpha c
      then String (if prev then lower_char c else upper_char c) (title_from true r)
      else String c (title_from false r)
  end.

Definition title (s : string) : string := title_from false s.

(** The longest prefix of characters of a class, and what follows it. *)
Fixpoint take_while (p : ascii -> bool) (s : string) : string :=
  match s with
  | EmptyString => EmptyString
  | String c r => if p c then String c (take_while p r) else EmptyString
  end.

Fixpoint drop_while (p : ascii -> bool) (s : string) : string :=
  match s with
  | EmptyString => EmptyString
  | String c r => if p c then drop_while p r else s
  end.

(** [s] starts with [pre], compared through [norm] on the side of [s]. *)
Fixpoint strip_prefix (norm : ascii -> ascii) (pre s : string) : option string :=
  match pre, s with
  | EmptyString, _ => Some s
  | String p pre', String c s' =>
      if Ascii.eqb p (norm c) then strip_prefix norm pre' s' else None
  | String _ _, EmptyString => None
  end.

(** [re.match(r"GRADE (\w+)", s)] with [norm] the identity, and with
    [re.IGNORECASE] when [norm] is [upper_char]; the result is group 1. *)
Definition match_grade (norm : ascii -> ascii) (s : string) : option string :=
  match strip_prefix norm "GRADE " s with
  | Some rest =>
      match take_while is_word rest with
      | EmptyString => None
      | tok => Some tok
      end
  | None => None
  end.

(** [re.search(r'[A-Za-z]+', s)]: the first maximal run of letters. *)
Definition search_alpha (s : string) : option string :=
  match take_while is_alpha (drop_while (fun c => negb (is_alpha c)) s) with
  | EmptyString => None
  | m => Some m
  end.

End PyStr.

(** ** Python values, exceptions, dictionaries *)

Inductive pyval : Type :=
| PNone
| PInt (z : Z)
| PStr (s : string).

#[global] Instance pyval_eq_dec : EqDecision pyval.
Proof. solve_decision. Defined.

Inductive exn : Type := TypeError | AttributeError | KeyError.

Inductive result (A : Type) : Type :=
| Ok (a : A)
| Raise (e : exn).

Arguments Ok {A} a.
Arguments Raise {A} e.

Definition bind {A B : Type} (r : result A) (k : A -> result B) : result B :=
  match r with
  | Ok a => k a
  | Raise e => Raise e
  end.

Notation "x <-! r ;; k" := (bind r (fun x => k))
  (at level 100, r at next level, right associativity).

(** [bool(v)] *)
Definition truthy (v : pyval) : bool :=
  match v with
  | PNone => false
  | PInt z => negb (Z.eqb z 0)
  | PStr s => negb (String.eqb s "")
  end.

(** [str(v)] *)
Definition str (v : pyval) : string :=
  match v with
  | PNone => "None"
  | PInt z => pretty z
  | PStr s => s
  end.

(** A raw record as the API delivers it. *)
Abbreviation record := (gmap string pyval).

(** [record.get(k)] and [record.get(k, d)] *)
Definition get (r : record) (k : string) : pyval := default PNone (r !! k).
Definition get_or (r : record) (k : string) (d : pyval) : pyval := default d (r !! k).

(** A dictionary literal with string values, looked up with a default. *)
Fixpoint dict_get (d : list (string * string)) (k dflt : string) : string :=
  match d with
  | [] => dflt
  | (k', v) :: d' => if String.eqb k' k then v else dict_get d' k dflt
  end.

(** ** utils.py *)

Module Utils.
Import PyStr.

Definition clean_student_name (value : pyval) : result pyval :=
  match value with
  | PStr s => Ok (PStr (title (strip (collapse_spaces s))))
  | _ => Raise TypeError
  end.

Definition grade_mapping : list (string * string) :=
  [ ("Jr.KG", "JR.KG"); ("Sr.KG", "SR.KG");
    ("I", "1"); ("II", "2"); ("III", "3"); ("IV", "4"); ("V", "5");
    ("VI", "6"); ("VII", "7"); ("VIII", "8"); ("IX", "9"); ("X", "10") ].

(** The body of [convert_grade_name] once [value] is known to be a [str]. *)
Definition convert_grade_str (s : string) : string :=
  match match_grade upper_char s with
  | Some tok =>
      let roman := upper tok in
      "GRADE " ++ dict_get grade_mapping roman roman
  | None => dict_get grade_mapping (upper (strip s)) (strip s)
  end.

(** [re.match] raises [TypeError] on a value that is not a string. *)
Definition convert_grade_name (value : pyval) : result pyval :=
  match value with
  | PStr s => Ok (PStr (convert_grade_str s))
  | _ => Raise TypeError
  end.

(** A truthy value without a [strip] method raises [AttributeError]. *)
Definition clean_gender (value : pyval) : result pyval :=
  if truthy value then
    match value with
    | PStr s =>
        let v := upper (strip s) in
        Ok (if String.eqb v "MALE" then PStr "M"
            else if String.eqb v "FEMALE" then PStr "F"
            else PNone)
    | _ => Raise AttributeError
    end
  else Ok PNone.

Definition extract_division (value : pyval) : result pyval :=
  if truthy value then
    match value with
    | PStr s =>
        match search_alpha s with
        | Some m => Ok (PStr (upper m))
        | None => Ok (PStr (upper (strip s)))
        end
    | _ => Raise TypeError
    end
  else Ok PNone.

Definition generate_unique_key (r : record) (academic_year : string) : string :=
  let school_name := strip (str (get_or r "school_name" (PStr ""))) in
  let student_id := strip (str (get_or r "student_id" (PStr ""))) in
  let grade_name := strip (str (get_or r "grade_name" (PStr ""))) in
  let converted_grade := convert_grade_str grade_name in
  school_name ++ "_" ++ student_id ++ "_" ++ academic_year ++ "_" ++ converted_grade.

Definition trim_string (value : pyval) : pyval :=
  match value with
  | PStr s => PStr (strip s)
  | _ => value
  end.

Definition required_fields : list string :=
  [ "school_name"; "status"; "grade_name"; "student_name"; "student_id";
    "gender"; "division_name" ].

(** The two shapes of the pair that [validate_student_record] returns:
    [(False, error_message)] and [(True, record)]. *)
Inductive validation : Type :=
| Invalid (error_message : string)
| Valid (r : record).

Definition missing_or_empty (field : string) : string :=
  "Missing or empty required field: '" ++ field ++ "'".

(** [field not in record or not trim_string(record[field])] *)
Definition field_rejected (r : record) (field : string) : bool :=
  match r !! field with
  | None => true
  | Some v => negb (truthy (trim_string v))
  end.

(** The [for field in required_fields] loop: the first rejected field. *)
Fixpoint first_rejected (r : record) (fields : list string) : option string :=
  match fields with
  | [] => None
  | field :: rest =>
      if field_rejected r field then Some field else first_rejected r rest
  end.

(** [isinstance(v, (str, int))] *)
Definition is_str_or_int (v : pyval) : bool :=
  match v with
  | PStr _ | PInt _ => true
  | PNone => false
  end.

Definition validate_student_record (r : record) : validation :=
  match first_rejected r required_fields with
  | Some field => Invalid (missing_or_empty field)
  | None =>
      if is_str_or_int (get r "student_id") then Valid r
      else Invalid "Invalid 'student_id' type, must be string or int."
  end.

End Utils.

(** ** sync_students.py: the cleaners of the unified sync script *)

Module SyncStudents.
Import PyStr.

Definition clean_student_name (value : pyval) : result pyval :=
  if truthy value then
    match value with
    | PStr s => Ok (PStr (title (strip (collapse_spaces s))))
    | _ => Raise TypeError
    end
  else Ok PNone.

Definition roman_to_number : list (string * string) :=
  [ ("I", "1"); ("II", "2"); ("III", "3"); ("IV", "4"); ("V", "5");
    ("VI", "6"); ("VII", "7"); ("VIII", "8"); ("IX", "9"); ("X", "10") ].

Definition convert_grade_name (value : pyval) : result pyval :=
  if truthy value then
    match value with
    | PStr s =>
        let value := strip s in
        if String.eqb value "Jr.KG" then Ok (PStr "JR.KG")
        else if String.eqb value "Sr.KG" then Ok (PStr "SR.KG")
        else
          match match_grade (fun c => c) (upper value) with
          | Some roman =>
              Ok (PStr ("GRADE " ++ dict_get roman_to_number (upper roman) roman))
          | None => Ok (PStr (upper value))
          end
    | _ => Raise AttributeError
    end
  else Ok PNone.

Definition clean_gender (value : pyval) : result pyval :=
  if truthy value then
    match value with
    | PStr s =>
        let value := upper (strip s) in
        Ok (if String.eqb value "MALE" then PStr "M"
            else if String.eqb value "FEMALE" then PStr "F"
            else PStr value)
    | _ => Raise AttributeError
    end
  else Ok PNone.

Definition extract_division (value : pyval) : result pyval :=
  if truthy value then
    match value with
    | PStr s =>
        match search_alpha s with
        | Some m => Ok (PStr (upper m))
        | None => Ok (PStr (upper s))
        end
    | _ => Raise TypeError
    end
  else Ok PNone.

(** [record[k]] raises [KeyError] on a missing key. *)
Definition item (r : record) (k : string) : result pyval :=
  match r !! k with
  | Some v => Ok v
  | None => Raise KeyError
  end.

(** [re.sub] wants a string for [school_name], and [.strip()] one for
    [academic_year]. *)
Definition generate_unique_key (r : record) : result string :=
  sn <-! item r "school_name" ;;
  match sn with
  | PStr sn =>
      let school := upper (strip (collapse_spaces sn)) in
      sid <-! item r "student_id" ;;
      let student_id := upper (strip (str sid)) in
      ay <-! item r "academic_year" ;;
      match ay with
      | PStr ay => Ok (school ++ "_" ++ student_id ++ "_" ++ strip ay)
      | _ => Raise AttributeError
      end
  | _ => Raise TypeError
  end.

End SyncStudents.

(** ** active_student_data_yearly.py: the cleaners of the yearly import *)

Module Yearly.
Import PyStr.

Definition roman_to_number : list (string * string) :=
  SyncStudents.roman_to_number.

Definition convert_grade_name (value : pyval) : result pyval :=
  if truthy value then
    match value with
    | PStr s =>
        if String.eqb s "Jr.KG" then Ok (PStr "JR.KG")
        else if String.eqb s "Sr.KG" then Ok (PStr "SR.KG")
        else
          match match_grade (fun c => c) s with
          | Some roman => Ok (PStr ("GRADE " ++ dict_get roman_to_number roman roman))
          | None => Ok (PStr s)
          end
    | _ => Raise TypeError
    end
  else Ok PNone.

Definition extract_division (value : pyval) : result pyval :=
  match value with
  | PStr s =>
      match search_alpha s with
      | Some m => Ok (PStr m)
      | None => Ok (PStr s)
      end
  | _ => Raise TypeError
  end.

End Yearly.

(** ** database.py *)

Module Database.
Import PyStr Utils.

(** A column value: NULL or text. *)
Abbreviation sql := (option string).

(** What the connector sends for a Python parameter, and what it hands
    back for a column. *)
Definition to_sql (v : pyval) : sql :=
  match v with
  | PNone => None
  | PInt z => Some (pretty z)
  | PStr s => Some s
  end.

Definition of_sql (c : sql) : pyval :=
  match c with
  | None => PNone
  | Some s => PStr s
  end.

(** A row of [active_student_data], without its [unique_key], which is the
    key of the table. *)
Record Row : Type := mkRow {
  school_name : sql;
  status : sql;
  grade_name : sql;
  student_name : sql;
  student_id : sql;
  gender : sql;
  division_name : sql;
  academic_year : sql;
  timestamp : sql
}.

Inductive ChangeType : Type := INSERT | UPDATE | INACTIVATE.

(** A row of [student_data_history]. *)
Record HistoryEntry : Type := mkHistory {
  unique_key : string;
  change_type : ChangeType;
  field_changed : sql;
  old_value : sql;
  new_value : sql;
  change_timestamp : string
}.

(** A statement on [active_student_data] that changed a row. *)
Inductive Write : Type :=
| Inserted (key : string)
| Updated (key : string)
| Inactivated (key : string).

(** The database as the cursor sees it inside its transaction: the two
    tables, and the log of the row-changing statements executed so far. *)
Record Cursor : Type := mkCursor {
  active_student_data : gmap string Row;
  student_data_history : list HistoryEntry;
  writes : list Write
}.

#[global] Instance Row_eq_dec : EqDecision Row.
Proof. solve_decision. Defined.

(** [SELECT unique_key ... WHERE academic_year = %s], as a set. *)
Definition fetch_existing_keys (cursor : Cursor) (year : string) : gset string :=
  dom (filter (fun kr => academic_year kr.2 = Some year) (active_student_data cursor)).

(** The dictionary that [get_current_record_details] builds from the
    selected row. *)
Definition current_details (row : Row) : record :=
  list_to_map
    [ ("status", of_sql (status row));
      ("grade_name", of_sql (grade_name row));
      ("student_name", of_sql (student_name row));
      ("gender", of_sql (gender row));
      ("division_name", of_sql (division_name row)) ].

Definition get_current_record_details (cursor : Cursor) (key : string)
  : option record :=
  match active_student_data cursor !! key with
  | Some row => Some (current_details row)
  | None => None
  end.

Definition log_history (cursor : Cursor) (key : string) (type : ChangeType)
    (field old new : pyval) (now : string) : Cursor :=
  mkCursor (active_student_data cursor)
           (student_data_history cursor ++
              [mkHistory key type (to_sql field) (to_sql old) (to_sql new) now])
           (writes cursor).

(** One turn of [for field, new_val in fields_to_check.items()]; the state
    is the cursor and [has_changed]. *)
Definition check_field (current : record) (key now : string)
    (acc : Cursor * bool) (item : string * pyval) : Cursor * bool :=
  let old_val := get current item.1 in
  if decide (str old_val = str item.2) then acc
  else (log_history acc.1 key UPDATE (PStr item.1) old_val item.2 now, true).

(** [UPDATE active_student_data SET ... WHERE unique_key = %s] *)
Definition sql_update (cursor : Cursor) (key : string)
    (new_status new_grade_name new_student_name new_gender new_division_name : pyval)
    (now : string) : Cursor :=
  match active_student_data cursor !! key with
  | Some row =>
      mkCursor
        (<[key := mkRow (school_name row) (to_sql new_status) (to_sql new_grade_name)
                        (to_sql new_student_name) (student_id row) (to_sql new_gender)
                        (to_sql new_division_name) (academic_year row) (Some now)]>
           (active_student_data cursor))
        (student_data_history cursor)
        (writes cursor ++ [Updated key])
  | None => cursor
  end.

Definition update_existing_record (cursor : Cursor) (r : record)
    (key now : string) : result Cursor :=
  match get_current_record_details cursor key with
  | None => Ok cursor
  | Some current =>
      let new_status := trim_string (get r "status") in
      new_grade_name <-! convert_grade_name (get r "grade_name") ;;
      new_student_name <-! clean_student_name (get r "student_name") ;;
      let new_gender := get r "gender" in
      new_division_name <-! extract_division (get r "division_name") ;;
      let fields_to_check :=
        [ ("status", new_status); ("grade_name", new_grade_name);
          ("student_name", new_student_name); ("gender", new_gender);
          ("division_name", new_division_name) ] in
      let checked := foldl (check_field current key now) (cursor, false) fields_to_check in
      if checked.2
      then Ok (sql_update checked.1 key new_status new_grade_name new_student_name
                          new_gender new_division_name now)
      else Ok checked.1
  end.

(** The INSERT is refused with error 1062 when the key is present; the
    handler logs a warning and returns. *)
Definition insert_new_record (cursor : Cursor) (r : record)
    (key year now : string) : result Cursor :=
  let cleaned_school_name := trim_string (get r "school_name") in
  let cleaned_status := trim_string (get r "status") in
  converted_grade <-! convert_grade_name (get r "grade_name") ;;
  cleaned_student_name <-! clean_student_name (get r "student_name") ;;
  let cleaned_student_id := trim_string (get r "student_id") in
  let cleaned_gender := get r "gender" in
  extracted_division <-! extract_division (get r "division_name") ;;
  match active_student_data cursor !! key with
  | Some _ => Ok cursor
  | None =>
      let inserted :=
        mkCursor
          (<[key := mkRow (to_sql cleaned_school_name) (to_sql cleaned_status)
                          (to_sql converted_grade) (to_sql cleaned_student_name)
                          (to_sql cleaned_student_id) (to_sql cleaned_gender)
                          (to_sql extracted_division) (Some year) (Some now)]>
             (active_student_data cursor))
          (student_data_history cursor)
          (writes cursor ++ [Inserted key]) in
      Ok (log_history inserted key INSERT (PStr "New Record") PNone
                      (PStr "Initial Insertion") now)
  end.

(** [UPDATE ... SET status = 'Inactive', timestamp = %s
     WHERE unique_key = %s AND status != 'Inactive']: the comparison with
    NULL is not true, so a row whose status is NULL is not matched. The
    result is the cursor and [cursor.rowcount]. *)
Definition sql_update_status (cursor : Cursor) (key now : string) : Cursor * nat :=
  match active_student_data cursor !! key with
  | Some row =>
      match status row with
      | Some s =>
          if decide (s = "Inactive") then (cursor, 0)
          else
            (mkCursor
               (<[key := mkRow (school_name row) (Some "Inactive") (grade_name row)
                               (student_name row) (student_id row) (gender row)
                               (division_name row) (academic_year row) (Some now)]>
                  (active_student_data cursor))
               (student_data_history cursor)
               (writes cursor ++ [Inactivated key]),
             1)
      | None => (cursor, 0)
      end
  | None => (cursor, 0)
  end.

(** The body of [for unique_key in inactive_keys]. [current_status] is the
    one-column row of the SELECT, a non-empty tuple and so truthy. *)
Definition mark_one (now : string) (cursor : Cursor) (key : string) : Cursor :=
  match active_student_data cursor !! key with
  | Some row =>
      let current_status := of_sql (status row) in
      if decide (current_status = PStr "Inactive") then cursor
      else
        let updated := sql_update_status cursor key now in
        if Nat.ltb 0 updated.2
        then log_history updated.1 key INACTIVATE (PStr "status") current_status
                         (PStr "Inactive") now
        else updated.1
  | None => cursor
  end.

Definition mark_records_as_inactive (cursor : Cursor)
    (existing_keys api_keys : gset string) (now : string) : Cursor :=
  let inactive_keys := existing_keys ∖ api_keys in
  if decide (inactive_keys = ∅) then cursor
  else foldl (mark_one now) cursor (elements inactive_keys).

End Database.

(** ** main.py *)

Module Main.
Import PyStr Utils Database.

(** The working set of one pass: the cursor, the two key sets and the
    three counters of the summary line. *)
Record Pass : Type := mkPass {
  cursor : Cursor;
  existing_keys : gset string;
  processed_api_keys : gset string;
  new_records_count : nat;
  updated_records_count : nat;
  skipped_invalid_records_count : nat
}.

(** The trimmed copy of a record and the four cleaners applied to it. *)
Definition clean_record (r : record) : result record :=
  let processed_record := trim_string <$> r in
  g <-! convert_grade_name (get processed_record "grade_name") ;;
  let processed_record := <["grade_name" := g]> processed_record in
  n <-! clean_student_name (get processed_record "student_name") ;;
  let processed_record := <["student_name" := n]> processed_record in
  s <-! clean_gender (get processed_record "gender") ;;
  let processed_record := <["gender" := s]> processed_record in
  d <-! extract_division (get processed_record "division_name") ;;
  Ok (<["division_name" := d]> processed_record).

(** The body of [for i, record in enumerate(students_data)]. *)
Definition process_record (year now : string) (st : Pass) (r : record)
  : result Pass :=
  match validate_student_record r with
  | Invalid _ =>
      Ok (mkPass (cursor st) (existing_keys st) (processed_api_keys st)
                 (new_records_count st) (updated_records_count st)
                 (S (skipped_invalid_records_count st)))
  | Valid _ =>
      processed_record <-! clean_record r ;;
      let unique_key := generate_unique_key processed_record year in
      let processed_api_keys := {[unique_key]} ∪ processed_api_keys st in
      if decide (unique_key ∈ existing_keys st) then
        c <-! update_existing_record (cursor st) processed_record unique_key now ;;
        Ok (mkPass c (existing_keys st ∖ {[unique_key]}) processed_api_keys
                   (new_records_count st) (S (updated_records_count st))
                   (skipped_invalid_records_count st))
      else
        c <-! insert_new_record (cursor st) processed_record unique_key year now ;;
        Ok (mkPass c (existing_keys st) processed_api_keys
                   (S (new_records_count st)) (updated_records_count st)
                   (skipped_invalid_records_count st))
  end.

Fixpoint process_records (year now : string) (st : Pass) (students_data : list record)
  : result Pass :=
  match students_data with
  | [] => Ok st
  | r :: rest =>
      st' <-! process_record year now st r ;;
      process_records year now st' rest
  end.

(** How a run ends: [sys.exit(code)] before the connection is opened, an
    uncaught exception (nothing is committed), or the commit. *)
Inductive Outcome : Type :=
| Exit (code : Z)
| Crash (e : exn)
| Committed (db : Cursor).

(** [main], from the fetched [students_data] on; [year] is the academic
    year computed from the clock and [db] the database found at connection
    time. *)
Definition main (year now : string) (db : Cursor) (students_data : list record)
  : Outcome :=
  match students_data with
  | [] => Exit 0
  | _ =>
      let existing := fetch_existing_keys db year in
      match process_records year now (mkPass db existing ∅ 0 0 0) students_data with
      | Raise e => Crash e
      | Ok st =>
          Committed (mark_records_as_inactive (cursor st) (existing_keys st)
                                              (processed_api_keys st) now)
      end
  end.

(** The database after a run. *)
Definition database_after (db : Cursor) (o : Outcome) : Cursor :=
  match o with
  | Committed db' => db'
  | _ => db
  end.

End Main.

(** ** The operations as the specification words them *)

Module Spec.
Import PyStr.

Inductive Gender : Type := M | F | UNKNOWN.

(** Trim and uppercase; "MALE" is M, "FEMALE" is F, anything else is
    UNKNOWN. *)
Definition normalizeGender (raw : string) : Gender :=
  let v := upper (strip raw) in
  if String.eqb v "MALE" then M
  else if String.eqb v "FEMALE" then F
  else UNKNOWN.

(** How the code writes the three values: "M", "F" and [None]. *)
Definition gender_value (g : Gender) : pyval :=
  match g with
  | M => PStr "M"
  | F => PStr "F"
  | UNKNOWN => PNone
  end.

(** The history entry of an insertion: INSERT, no field, no old value, and
    "Initial Insertion" as new value. *)
Definition insert_entry_expected (k now : string) : Database.HistoryEntry :=
  Database.mkHistory k Database.INSERT None None (Some "Initial Insertion") now.

End Spec.

(** ** What a pass does with a record, read off the loop body *)

Module Reading.
Import PyStr Utils Database Main.

(** The five values that [update_existing_record] compares and writes, and
    that [insert_new_record] writes, in the order of [fields_to_check]. *)
Definition fields_to_check (p : record) : result (list (string * pyval)) :=
  new_grade_name <-! convert_grade_name (get p "grade_name") ;;
  new_student_name <-! clean_student_name (get p "student_name") ;;
  new_division_name <-! extract_division (get p "division_name") ;;
  Ok [ ("status", trim_string (get p "status")); ("grade_name", new_grade_name);
       ("student_name", new_student_name); ("gender", get p "gender");
       ("division_name", new_division_name) ].

(** The comparison of [update_existing_record] finds no difference. *)
Definition same_text (current : record) (item : string * pyval) : Prop :=
  str (get current item.1) = str item.2.

(** The shape of a record that left [clean_record]. *)
Definition cleaned (p : record) : Prop :=
  (exists g, get p "grade_name" = PStr g)
  /\ (exists n, get p "student_name" = PStr n)
  /\ (get p "division_name" = PNone \/ exists d, get p "division_name" = PStr d).

(** A stored row shows no difference with a cleaned record. *)
Definition up_to_date (row : Row) (p : record) : Prop :=
  exists items,
    fields_to_check p = Ok items /\ Forall (same_text (current_details row)) items.

(** What the loop body decides before it touches the store: to skip the
    record, or its key and its cleaned copy. *)
Definition plan (year : string) (r : record) : result (option (string * record)) :=
  match validate_student_record r with
  | Invalid _ => Ok None
  | Valid _ =>
      p <-! clean_record r ;;
      Ok (Some (generate_unique_key p year, p))
  end.

(** The cleaned copy of the first record of the batch that has the key. *)
Fixpoint first_of (year : string) (batch : list record) (key : string) : option record :=
  match batch with
  | [] => None
  | r :: rest =>
      match plan year r with
      | Ok (Some (k, p)) => if decide (k = key) then Some p else first_of year rest key
      | _ => first_of year rest key
      end
  end.

(** The keys of the batch. *)
Fixpoint keys_of (year : string) (batch : list record) : gset string :=
  match batch with
  | [] => ∅
  | r :: rest =>
      match plan year r with
      | Ok (Some (k, _)) => {[k]} ∪ keys_of year rest
      | _ => keys_of year rest
      end
  end.

(** The row that the sweep leaves in the place of a row. *)
Definition swept_row (now : string) (row : Row) : Row :=
  match status row with
  | Some s =>
      if decide (s = "Inactive") then row
      else mkRow (school_name row) (Some "Inactive") (grade_name row)
                 (student_name row) (student_id row) (gender row)
                 (division_name row) (academic_year row) (Some now)
  | None => row
  end.

(** The sweep has something to do on the row. *)
Definition sweepable (row : Row) : bool :=
  match status row with
  | Some s => negb (String.eqb s "Inactive")
  | None => false
  end.

(** The entry that one turn of the sweep appends, if any. *)
Definition sweep_entries (now : string) (c : Cursor) (k : string) : list HistoryEntry :=
  match active_student_data c !! k with
  | Some row =>
      if sweepable row
      then [mkHistory k INACTIVATE (Some "status") (status row) (Some "Inactive") now]
      else []
  | None => []
  end.

(** The entry that [insert_new_record] logs. *)
Definition insert_entry_logged (k now : string) : HistoryEntry :=
  mkHistory k INSERT (Some "New Record") None (Some "Initial Insertion") now.

End Reading.

(** ** Sample data *)

Definition sample_record : record :=
  list_to_map
    [ ("school_name", PStr " ABC School "); ("status", PStr "Active");
      ("grade_name", PStr "GRADE iv"); ("student_name", PStr "john  doe");
      ("student_id", PInt 12); ("gender", PStr "male");
      ("division_name", PStr "12-a") ].

(** A second record of the same student (the same key) under another
    name, and a record whose status is the text "None". *)
Definition sample_record_renamed : record :=
  <["student_name" := PStr "Johnny Doe"]> sample_record.

Definition sample_record_none : record :=
  <["status" := PStr "None"]> sample_record.

Definition sample_key : string := "ABC School_12_2025-2026_GRADE 4".

Definition empty_db : Database.Cursor := Database.mkCursor ∅ [] [].

(** The row of [sample_record] with a given status. *)
Definition sample_row (status : option string) : Database.Row :=
  Database.mkRow (Some "ABC School") status (Some "GRADE 4") (Some "John Doe")
                 (Some "12") (Some "M") (Some "A") (Some "2025-2026")
                 (Some "2025-06-01 09:00:00").

(** A database with the row of [sample_record], outdated in its name, and
    the row of a student who is not in the batch. *)
Definition sample_db : Database.Cursor :=
  Database.mkCursor
    (<[sample_key :=
         Database.mkRow (Some "ABC School") (Some "Active") (Some "GRADE 4")
                        (Some "J Doe") (Some "12") (Some "M") (Some "A")
                        (Some "2025-2026") (Some "2025-06-01 09:00:00")]>
       {["ABC School_99_2025-2026_GRADE 1" :=
           Database.mkRow (Some "ABC School") (Some "Active") (Some "GRADE 1")
                          (Some "Jane Roe") (Some "99") (Some "F") (Some "B")
                          (Some "2025-2026") (Some "2025-06-01 09:00:00")]})
    [] [].

(** * Properties *)

(** ** The cleaners *)

Section Cleaners.
Import PyStr.

(** On a string, the cleaners of [utils.py] return. *)
Lemma convert_grade_name_str (s : string) :
  Utils.convert_grade_name (PStr s) = Ok (PStr (Utils.convert_grade_str s)).
Proof. reflexivity. Qed.

Lemma clean_student_name_str (s : string) :
  exists t, Utils.clean_student_name (PStr s) = Ok (PStr t).
Proof. eexists. reflexivity. Qed.

Lemma extract_division_str (s : string) :
  s <> "" -> exists t, Utils.extract_division (PStr s) = Ok (PStr t).
Proof.
  intros Hs. unfold Utils.extract_division, truthy.
  destruct (String.eqb_spec s "") as [->|_]; [done|]. simpl.
  destruct (search_alpha s); eexists; reflexivity.
Qed.

(** C6 (gender normalization). On every string [utils.clean_gender]
    computes the three-valued [normalizeGender] of the specification: "M"
    for MALE, "F" for FEMALE after trimming and uppercasing, and [None],
    the unknown marker, for every other string, so that no unrecognised
    value is passed through; "  male " gives "M" and "Other" gives
    [None]. *)
Theorem clean_gender_is_normalizeGender :
  (forall s : string,
      Utils.clean_gender (PStr s) = Ok (Spec.gender_value (Spec.normalizeGender s)))
  /\ Utils.clean_gender (PStr "  male ") = Ok (PStr "M")
  /\ Utils.clean_gender (PStr "Other") = Ok PNone.
Proof.
  split; [|split; reflexivity].
  intros s. unfold Utils.clean_gender, Spec.normalizeGender, truthy.
  destruct (String.eqb_spec s "") as [->|_]; [reflexivity|]. simpl.
  destruct (String.eqb _ "MALE"); [reflexivity|].
  destruct (String.eqb _ "FEMALE"); reflexivity.
Qed.

(** The sibling in [sync_students.py] hands an unrecognised value back
    uppercased. *)
Example sync_clean_gender_passthrough :
  SyncStudents.clean_gender (PStr "Other") = Ok (PStr "OTHER").
Proof. reflexivity. Qed.

(** C5 (grade normalization examples). [utils.convert_grade_name] maps
    "GRADE iv" to "GRADE 4" and "GRADE XI" to itself, but it returns
    "Jr.KG" unchanged: the table is looked up under the uppercased key
    "JR.KG", which it does not hold. The yearly import leaves "GRADE iv"
    as it is. *)
Theorem convert_grade_name_examples :
  Utils.convert_grade_name (PStr "GRADE iv") = Ok (PStr "GRADE 4")
  /\ Utils.convert_grade_name (PStr "GRADE XI") = Ok (PStr "GRADE XI")
  /\ Utils.convert_grade_name (PStr "Jr.KG") = Ok (PStr "Jr.KG")
  /\ Yearly.convert_grade_name (PStr "GRADE iv") = Ok (PStr "GRADE iv").
Proof. repeat split; vm_compute; reflexivity. Qed.

(** The three examples hold of the sibling in [sync_students.py]. *)
Example sync_convert_grade_name_examples :
  SyncStudents.convert_grade_name (PStr "GRADE iv") = Ok (PStr "GRADE 4")
  /\ SyncStudents.convert_grade_name (PStr "Jr.KG") = Ok (PStr "JR.KG")
  /\ SyncStudents.convert_grade_name (PStr "GRADE XI") = Ok (PStr "GRADE XI").
Proof. repeat split; vm_compute; reflexivity. Qed.

(** C9 (normalizer totality). On [None] the unguarded cleaners raise:
    [utils.clean_student_name] and [utils.convert_grade_name] hand it to
    [re.sub] and [re.match], and the yearly [extract_division] to
    [re.search]. In [main] the validator keeps [None] away from them, but not
    a number: a record whose [student_name] is the integer 7 is accepted, and
    the pass ends in the uncaught [TypeError]. *)
Theorem cleaners_raise_on_None :
  Utils.clean_student_name PNone = Raise TypeError
  /\ Utils.convert_grade_name PNone = Raise TypeError
  /\ Yearly.extract_division PNone = Raise TypeError
  /\ Main.main "2025-2026" "2025-06-02 10:00:00" empty_db
        [<["student_name" := PInt 7]> sample_record] = Main.Crash TypeError.
Proof. repeat split; vm_compute; reflexivity. Qed.

(** The siblings in [sync_students.py] guard the same calls. *)
Example sync_cleaners_return_on_None :
  SyncStudents.clean_student_name PNone = Ok PNone
  /\ SyncStudents.convert_grade_name PNone = Ok PNone
  /\ SyncStudents.extract_division PNone = Ok PNone.
Proof. repeat split. Qed.

End Cleaners.

(** ** The unique key *)

Section UniqueKey.

(** C1 (key stability under a grade change). Two records that differ in
    [grade_name] only get different keys from [utils.generate_unique_key]:
    the converted grade is the fourth component of the key. *)
Theorem utils_unique_key_follows_grade :
  Utils.generate_unique_key (<["grade_name" := PStr "GRADE 1"]> sample_record) "2025-2026"
    = "ABC School_12_2025-2026_GRADE 1"
  /\ Utils.generate_unique_key (<["grade_name" := PStr "GRADE 2"]> sample_record) "2025-2026"
    = "ABC School_12_2025-2026_GRADE 2"
  /\ Utils.generate_unique_key (<["grade_name" := PStr "GRADE 1"]> sample_record) "2025-2026"
    <> Utils.generate_unique_key (<["grade_name" := PStr "GRADE 2"]> sample_record) "2025-2026".
Proof. repeat split; vm_compute; (reflexivity || discriminate). Qed.

(** The key of [sync_students.py] does not read [grade_name]. *)
Lemma sync_unique_key_ignores_grade (r : record) (g : pyval) :
  SyncStudents.generate_unique_key (<["grade_name" := g]> r)
    = SyncStudents.generate_unique_key r.
Proof.
  unfold SyncStudents.generate_unique_key, SyncStudents.item.
  rewrite !lookup_insert_ne by done. reflexivity.
Qed.

End UniqueKey.

(** ** The validator *)

Section Validator.
Import PyStr Utils Main.

Lemma first_rejected_Some (r : record) (fields : list string) (f : string) :
  first_rejected r fields = Some f -> In f fields /\ field_rejected r f = true.
Proof.
  induction fields as [|g rest IH]; simpl; [discriminate|].
  destruct (field_rejected r g) eqn:Hg.
  - intros [= <-]. auto.
  - intros H. destruct (IH H). auto.
Qed.

Lemma first_rejected_None (r : record) (fields : list string) :
  first_rejected r fields = None ->
  forall f, In f fields -> field_rejected r f = false.
Proof.
  induction fields as [|g rest IH]; simpl; [tauto|].
  destruct (field_rejected r g) eqn:Hg; [discriminate|].
  intros H f [<-|Hf]; auto.
Qed.

Lemma first_rejected_exists (r : record) (fields : list string) (f : string) :
  In f fields -> field_rejected r f = true ->
  exists f0, first_rejected r fields = Some f0.
Proof.
  induction fields as [|g rest IH]; simpl; [tauto|].
  destruct (field_rejected r g) eqn:Hg; [eauto|].
  intros [<-|Hf] Hbad; [congruence|eauto].
Qed.

(** A truthy trimmed value was truthy before the trim. *)
Lemma truthy_trim_string (v : pyval) :
  truthy (trim_string v) = true -> truthy v = true.
Proof.
  destruct v as [|z|s]; simpl; auto.
  destruct (String.eqb_spec s "") as [->|_]; auto.
Qed.


(** So does a field that holds a falsy value. *)
Lemma falsy_field_rejected (r : record) (f : string) (v : pyval) :
  r !! f = Some v -> truthy v = false -> field_rejected r f = true.
Proof.
  unfold field_rejected. intros -> Hv.
  destruct (truthy (trim_string v)) eqn:Ht; [|reflexivity].
  apply truthy_trim_string in Ht. congruence.
Qed.

(** The loop stops at the first rejected field: the fields listed before it
    passed the test. *)
Lemma first_rejected_split (r : record) (fields : list string) (f0 : string) :
  first_rejected r fields = Some f0 ->
  exists before after,
    fields = (before ++ f0 :: after)%list
    /\ Forall (fun g => field_rejected r g = false) before
    /\ field_rejected r f0 = true.
Proof.
  induction fields as [|g rest IH]; simpl; [discriminate|].
  destruct (field_rejected r g) eqn:Hg.
  - intros [= <-]. exists [], rest. auto.
  - intros (before & after & -> & Hok & Hbad)%IH.
    exists (g :: before), after. auto.
Qed.

(** A record with a rejected required field is invalid, and the message
    spells the name of the first rejected field in the order of the list:
    the rejected field itself, or one listed before it. *)
Lemma rejected_field_invalid (r : record) (f : string) :
  In f required_fields -> field_rejected r f = true ->
  exists before f0 after,
    required_fields = (before ++ f0 :: after)%list
    /\ Forall (fun g => field_rejected r g = false) before
    /\ field_rejected r f0 = true
    /\ (f0 = f \/ In f after)
    /\ validate_student_record r
       = Invalid ("Missing or empty required field: '" ++ f0 ++ "'").
Proof.
  intros Hreq Hbad.
  destruct (first_rejected_exists r required_fields f Hreq Hbad) as [f0 Hf0].
  destruct (first_rejected_split _ _ _ Hf0) as (before & after & Hsplit & Hok & Hbad0).
  exists before, f0, after. repeat split; try assumption.
  - rewrite Hsplit in Hreq. apply in_app_or in Hreq as [Hin|[->|Hin]]; auto.
    rewrite Forall_forall in Hok. apply list_elem_of_In in Hin.
    rewrite (Hok _ Hin) in Hbad. discriminate.
  - unfold validate_student_record. rewrite Hf0. reflexivity.
Qed.

(** An accepted record is returned as it came and holds a truthy value in
    every required field. *)
Lemma valid_record_fields (r r' : record) :
  validate_student_record r = Valid r' ->
  r' = r /\
  forall g, In g required_fields ->
    exists w, r !! g = Some w /\ truthy (trim_string w) = true /\ truthy w = true.
Proof.
  unfold validate_student_record.
  destruct (first_rejected r required_fields) eqn:Hfirst; [discriminate|].
  destruct (is_str_or_int _); [|discriminate].
  intros [= <-]. split; [reflexivity|].
  intros g Hg. pose proof (first_rejected_None _ _ Hfirst g Hg) as Hok.
  unfold field_rejected in Hok. destruct (r !! g) as [w|]; [|discriminate].
  exists w. apply negb_false_iff in Hok. auto using truthy_trim_string.
Qed.




(** C10 (falsy non-string values), amended. [trim_string] returns a value
    that is not a string unchanged, so a required field that holds such a
    value and is falsy, as the integer 0 is, fails the test of the loop: the
    record is rejected with the message "Missing or empty required field:
    '<name>'" of the first rejected field in the order of
    [required_fields], which is that field or one listed before it,
    although the type check that follows admits integers for [student_id].
    Hence every record the validator accepts has a truthy value in each of
    the seven required fields. *)
Theorem falsy_value_is_rejected (r : record) (f : string) (v : pyval)
    (Hreq : In f required_fields)
    (Hget : r !! f = Some v)
    (Hnot_str : forall s, v <> PStr s)
    (Hfalsy : truthy v = false) :
  trim_string v = v /\
  (exists before f0 after,
      required_fields = (before ++ f0 :: after)%list
      /\ Forall (fun g => field_rejected r g = false) before
      /\ field_rejected r f0 = true
      /\ (f0 = f \/ In f after)
      /\ validate_student_record r
         = Invalid ("Missing or empty required field: '" ++ f0 ++ "'")) /\
  is_str_or_int (PInt 0) = true /\
  (forall r0 r1 : record,
      validate_student_record r0 = Valid r1 ->
      forall g, In g required_fields -> exists w, r0 !! g = Some w /\ truthy w = true).
Proof.
  split; [|split; [|split]].
  - destruct v; try reflexivity. exfalso. eapply Hnot_str. reflexivity.
  - apply rejected_field_invalid; [assumption|].
    eapply falsy_field_rejected; eassumption.
  - reflexivity.
  - intros r0 r1 Hvalid g Hg.
    destruct (valid_record_fields r0 r1 Hvalid) as [_ Hall].
    destruct (Hall g Hg) as (w & Hw & _ & Ht). eauto.
Qed.

(** The sample record with [student_id] 0 is rejected for [student_id]. *)
Lemma falsy_value_is_rejected_witness :
  trim_string (PInt 0) = PInt 0
  /\ validate_student_record (<["student_id" := PInt 0]> sample_record)
     = Invalid "Missing or empty required field: 'student_id'".
Proof.
  destruct (falsy_value_is_rejected (<["student_id" := PInt 0]> sample_record)
              "student_id" (PInt 0))
    as (Htrim & _ & _ & _).
  - simpl. tauto.
  - vm_compute. reflexivity.
  - intros s. discriminate.
  - reflexivity.
  - split; [exact Htrim|vm_compute; reflexivity].
Defined.

(** C10, as stated, fails on a record without [school_name] whose
    [student_id] is 0: the message names [school_name]. *)
Lemma falsy_later_field_is_not_named :
  In "student_id" required_fields
  /\ <["student_id" := PInt 0]> (delete "school_name" sample_record) !! "student_id"
     = Some (PInt 0)
  /\ truthy (PInt 0) = false
  /\ validate_student_record (<["student_id" := PInt 0]> (delete "school_name" sample_record))
     = Invalid "Missing or empty required field: 'school_name'"
  /\ validate_student_record (<["student_id" := PInt 0]> (delete "school_name" sample_record))
     <> Invalid "Missing or empty required field: 'student_id'".
Proof.
  split; [simpl; tauto|]. split; [by vm_compute|]. split; [reflexivity|].
  split; [by vm_compute|]. by vm_compute.
Qed.

End Validator.

(** ** The store operations *)

Section Store.
Import PyStr Utils Database Reading.

(** A value read back from the column it was written to prints as before. *)
Lemma str_of_sql_to_sql (v : pyval) : str (of_sql (to_sql v)) = str v.
Proof. destruct v; reflexivity. Qed.

(** *** The comparison loop *)

Lemma check_fields_same (current : record) (key now : string)
    (items : list (string * pyval)) (acc : Cursor * bool) :
  Forall (same_text current) items ->
  foldl (check_field current key now) acc items = acc.
Proof.
  intros Hall. revert acc. induction Hall as [|item rest Hsame _ IH]; intros acc.
  - reflexivity.
  - simpl. unfold check_field at 2. unfold same_text in Hsame.
    destruct (decide _); [apply IH|contradiction].
Qed.

Lemma check_fields_frame (current : record) (key now : string)
    (items : list (string * pyval)) (acc : Cursor * bool) :
  active_student_data (foldl (check_field current key now) acc items).1
    = active_student_data acc.1
  /\ writes (foldl (check_field current key now) acc items).1 = writes acc.1.
Proof.
  revert acc. induction items as [|item rest IH]; intros acc; [auto|].
  simpl. destruct (IH (check_field current key now acc item)) as [-> ->].
  unfold check_field. destruct (decide _); auto.
Qed.

Lemma check_fields_flag (current : record) (key now : string)
    (items : list (string * pyval)) (acc : Cursor * bool) :
  (foldl (check_field current key now) acc items).2 = false ->
  acc.2 = false /\ Forall (same_text current) items.
Proof.
  revert acc. induction items as [|item rest IH]; intros acc; [simpl; auto|].
  simpl. intros Hflag. destruct (IH _ Hflag) as [Hacc Hrest].
  unfold check_field in Hacc. destruct (decide _) as [Hsame|_]; [|discriminate].
  split; [assumption|]. constructor; assumption.
Qed.

(** *** Cleaned records *)

Lemma extract_division_returns (v : pyval) (d : pyval) :
  extract_division v = Ok d -> d = PNone \/ exists t, d = PStr t.
Proof.
  unfold extract_division. destruct (truthy v); [|intros [= <-]; auto].
  destruct v as [|z|s]; try discriminate.
  destruct (search_alpha s); intros [= <-]; eauto.
Qed.

Lemma clean_record_cleaned (r p : record) :
  Main.clean_record r = Ok p -> cleaned p.
Proof.
  unfold Main.clean_record.
  destruct (convert_grade_name _) as [g|] eqn:Hg; [simpl|discriminate].
  destruct (clean_student_name _) as [n|] eqn:Hn; [simpl|discriminate].
  destruct (clean_gender _) as [s|] eqn:Hs; [simpl|discriminate].
  destruct (extract_division _) as [d|] eqn:Hd; [simpl|discriminate].
  intros [= <-]. unfold cleaned, get.
  rewrite lookup_insert_eq.
  rewrite !(lookup_insert_ne _ "division_name") by done.
  rewrite !(lookup_insert_ne _ "gender") by done.
  rewrite lookup_insert_eq.
  rewrite !(lookup_insert_ne _ "student_name") by done.
  rewrite lookup_insert_eq. simpl.
  split; [|split].
  - unfold convert_grade_name in Hg. destruct (get _ "grade_name"); try discriminate.
    injection Hg as <-. eauto.
  - unfold clean_student_name in Hn. destruct (get _ "student_name"); try discriminate.
    injection Hn as <-. eauto.
  - eapply extract_division_returns. eassumption.
Qed.

Lemma cleaned_fields_to_check (p : record) :
  cleaned p -> exists items, fields_to_check p = Ok items.
Proof.
  intros ((g & Hg) & (n & Hn) & Hd). unfold fields_to_check.
  rewrite Hg, Hn. simpl.
  destruct Hd as [->|(d & ->)]; [simpl; eauto|].
  unfold extract_division, truthy.
  destruct (negb _); [|simpl; eauto].
  destruct (search_alpha d); simpl; eauto.
Qed.

(** *** The two write paths on a cleaned record *)

(** [update_existing_record] returns; it leaves the other rows alone, keeps
    the academic year of the row, changes nothing when the row shows no
    difference, and leaves a row that shows none. *)
Lemma update_existing_record_spec (c : Cursor) (p : record) (k now : string)
    (items : list (string * pyval)) :
  fields_to_check p = Ok items ->
  exists c',
    update_existing_record c p k now = Ok c'
    /\ (forall k', k' <> k -> active_student_data c' !! k' = active_student_data c !! k')
    /\ match active_student_data c !! k with
       | None => c' = c
       | Some row =>
           (Forall (same_text (current_details row)) items -> c' = c)
           /\ exists row',
               active_student_data c' !! k = Some row'
               /\ academic_year row' = academic_year row
               /\ Forall (same_text (current_details row')) items
       end.
Proof.
  unfold fields_to_check, update_existing_record, get_current_record_details.
  destruct (convert_grade_name _) as [g|]; [cbn [bind]|discriminate].
  destruct (clean_student_name _) as [n|]; [cbn [bind]|discriminate].
  destruct (extract_division _) as [d|]; [cbn [bind]|discriminate].
  intros [= <-].
  destruct (active_student_data c !! k) as [row|] eqn:Hrow; [|eauto].
  match goal with |- context [foldl ?f ?a ?l] => set (checked := foldl f a l) end.
  destruct (check_fields_frame (current_details row) k now
              [ ("status", trim_string (get p "status")); ("grade_name", g);
                ("student_name", n); ("gender", get p "gender");
                ("division_name", d) ] (c, false)) as [Htable Hwrites].
  fold checked in Htable, Hwrites. simpl in Htable, Hwrites.
  destruct checked.2 eqn:Hflag.
  - eexists. split; [reflexivity|]. unfold sql_update. rewrite Htable, Hrow. simpl.
    split; [intros k' Hk'; apply lookup_insert_ne; congruence|].
    split.
    + intros Hsame.
      pose proof (check_fields_same (current_details row) k now _ (c, false) Hsame) as Hfold.
      fold checked in Hfold. rewrite Hfold in Hflag. discriminate.
    + eexists. split; [apply lookup_insert_eq|]. split; [reflexivity|].
      repeat constructor; unfold same_text; simpl; apply str_of_sql_to_sql.
  - destruct (check_fields_flag _ _ _ _ _ Hflag) as [_ Hsame].
    pose proof (check_fields_same (current_details row) k now _ (c, false) Hsame) as Hfold.
    fold checked in Hfold. rewrite Hfold. simpl.
    eexists. split; [reflexivity|]. split; [reflexivity|].
    split; [reflexivity|]. eauto.
Qed.

(** [insert_new_record] returns; on a present key it changes nothing, and on
    an absent one it adds a row of the year that shows no difference with
    the record, logs the statement and appends one history entry. *)
Lemma insert_new_record_spec (c : Cursor) (p : record) (k year now : string)
    (items : list (string * pyval)) :
  fields_to_check p = Ok items ->
  exists c',
    insert_new_record c p k year now = Ok c'
    /\ match active_student_data c !! k with
       | Some _ => c' = c
       | None =>
           exists row',
             c' = mkCursor (<[k := row']> (active_student_data c))
                           (student_data_history c ++
                              [mkHistory k INSERT (Some "New Record") None
                                         (Some "Initial Insertion") now])
                           (writes c ++ [Inserted k])
             /\ academic_year row' = Some year
             /\ Forall (same_text (current_details row')) items
       end.
Proof.
  unfold fields_to_check, insert_new_record.
  destruct (convert_grade_name _) as [g|]; [cbn [bind]|discriminate].
  destruct (clean_student_name _) as [n|]; [cbn [bind]|discriminate].
  destruct (extract_division _) as [d|]; [cbn [bind]|discriminate].
  intros [= <-].
  destruct (active_student_data c !! k) as [row|] eqn:Hrow; [eauto|].
  eexists. split; [reflexivity|]. eexists. split; [reflexivity|].
  split; [reflexivity|].
  repeat constructor; unfold same_text; simpl; apply str_of_sql_to_sql.
Qed.

End Store.

(** ** The loop body *)

Section LoopBody.
Import PyStr Utils Database Main Reading.

Implicit Types (st : Pass) (r p : record) (k year now : string).

(** The table a pass works on. *)
Local Abbreviation table st := (active_student_data (cursor st)).

Lemma plan_keyed year r k p :
  plan year r = Ok (Some (k, p)) ->
  clean_record r = Ok p /\ k = generate_unique_key p year
  /\ exists items, fields_to_check p = Ok items.
Proof.
  unfold plan. destruct (validate_student_record r); [discriminate|].
  destruct (clean_record r) as [p'|] eqn:Hclean; [cbn [bind]|discriminate].
  intros [= <- <-]. split; [reflexivity|]. split; [reflexivity|].
  apply cleaned_fields_to_check. eapply clean_record_cleaned. eassumption.
Qed.

Lemma process_record_skipped year now st r :
  plan year r = Ok None ->
  process_record year now st r =
    Ok (mkPass (cursor st) (existing_keys st) (processed_api_keys st)
               (new_records_count st) (updated_records_count st)
               (S (skipped_invalid_records_count st))).
Proof.
  unfold plan, process_record. destruct (validate_student_record r); [reflexivity|].
  destruct (clean_record r); discriminate.
Qed.

Lemma process_record_raised year now st r e :
  plan year r = Raise e -> process_record year now st r = Raise e.
Proof.
  unfold plan, process_record. destruct (validate_student_record r); [discriminate|].
  destruct (clean_record r); [discriminate|]. intros [= <-]. reflexivity.
Qed.

(** A record with a key goes through one of the two write paths, which
    returns; the step records the key, takes it out of [existing_keys] and
    touches no other row. On the update path the row keeps its year and
    shows no difference afterwards; on the insert path a present row stays
    and an absent one is created for the year. *)
Lemma process_record_keyed year now st r k p :
  plan year r = Ok (Some (k, p)) ->
  exists st',
    process_record year now st r = Ok st'
    /\ existing_keys st' = existing_keys st ∖ {[k]}
    /\ processed_api_keys st' = {[k]} ∪ processed_api_keys st
    /\ (forall k', k' <> k -> table st' !! k' = table st !! k')
    /\ (k ∈ existing_keys st ->
         match table st !! k with
         | None => cursor st' = cursor st
         | Some row =>
             (up_to_date row p -> cursor st' = cursor st)
             /\ exists row',
                 table st' !! k = Some row'
                 /\ academic_year row' = academic_year row
                 /\ up_to_date row' p
         end)
    /\ (k ∉ existing_keys st ->
         match table st !! k with
         | Some _ => cursor st' = cursor st
         | None =>
             exists row',
               cursor st' =
                 mkCursor (<[k := row']> (table st))
                          (student_data_history (cursor st) ++
                             [mkHistory k INSERT (Some "New Record") None
                                        (Some "Initial Insertion") now])
                          (writes (cursor st) ++ [Inserted k])
               /\ academic_year row' = Some year
               /\ up_to_date row' p
         end).
Proof.
  intros Hplan. destruct (plan_keyed _ _ _ _ Hplan) as (Hclean & -> & items & Hitems).
  unfold plan in Hplan. unfold process_record.
  destruct (validate_student_record r); [discriminate|].
  rewrite Hclean. cbn [bind].
  set (k := generate_unique_key p year).
  destruct (decide (k ∈ existing_keys st)) as [Hin|Hout].
  - destruct (update_existing_record_spec (cursor st) p k now items Hitems)
      as (c' & -> & Hframe & Hrow).
    cbn [bind]. eexists. split; [reflexivity|]. cbn.
    split; [reflexivity|]. split; [reflexivity|]. split; [exact Hframe|].
    split; [|contradiction].
    intros _. destruct (table st !! k) as [row|]; [|exact Hrow].
    destruct Hrow as (Hsame & row' & Hlook & Hyear & Hnew).
    split.
    + intros (items' & Hitems' & Hall). apply Hsame. congruence.
    + exists row'. unfold up_to_date. eauto 6.
  - destruct (insert_new_record_spec (cursor st) p k year now items Hitems)
      as (c' & -> & Hrow).
    cbn [bind]. eexists. split; [reflexivity|]. cbn.
    split; [set_solver|]. split; [reflexivity|].
    split.
    { intros k' Hk'. destruct (table st !! k) as [row|]; [by subst c'|].
      destruct Hrow as (row' & -> & _). cbn. apply lookup_insert_ne. congruence. }
    split; [contradiction|].
    intros _. destruct (table st !! k) as [row|]; [exact Hrow|].
    destruct Hrow as (row' & -> & Hyear & Hnew).
    exists row'. unfold up_to_date. eauto 6.
Qed.

End LoopBody.

(** ** The loop *)

Section Loop.
Import PyStr Utils Database Main Reading.

Implicit Types (st : Pass) (r p : record) (k year now : string).

Local Abbreviation table st := (active_student_data (cursor st)).

Lemma first_of_keys year (batch : list record) k :
  k ∈ keys_of year batch <-> is_Some (first_of year batch k).
Proof.
  induction batch as [|r rest IH]; simpl.
  - split; [set_solver|intros [? [=]]].
  - destruct (plan year r) as [[[k' p]|]|]; try exact IH.
    destruct (decide (k' = k)) as [->|Hne].
    + split; [eauto|set_solver].
    + rewrite <- IH. set_solver.
Qed.


(** The two key sets after the loop. *)
Lemma process_records_key_sets year now (batch : list record) st st' :
  process_records year now st batch = Ok st' ->
  existing_keys st' = existing_keys st ∖ keys_of year batch
  /\ processed_api_keys st' = keys_of year batch ∪ processed_api_keys st.
Proof.
  revert st. induction batch as [|r rest IH]; intros st; simpl.
  - intros [= <-]. split; set_solver.
  - destruct (plan year r) as [[[k p]|]|e] eqn:Hplan.
    + destruct (process_record_keyed year now st r k p Hplan)
        as (st1 & -> & HE & HA & _).
      cbn [bind]. intros Hrest. destruct (IH _ Hrest) as [-> ->].
      rewrite HE, HA. split; set_solver.
    + rewrite (process_record_skipped _ _ _ _ Hplan). cbn [bind].
      intros Hrest. destruct (IH _ Hrest) as [-> ->]. split; reflexivity.
    + rewrite (process_record_raised _ _ _ _ _ Hplan). discriminate.
Qed.

(** The table after the loop, key by key, when every key of
    [existing_keys] has a row: a row whose key is not in [existing_keys] is
    never changed; a key that no record of the batch has keeps its row; and
    the first record of the batch with a key decides its row, which then
    shows no difference with this record, in the year it had or, if it is
    new, in the year of the pass. *)
Lemma process_records_table year now (batch : list record) st st' :
  process_records year now st batch = Ok st' ->
  existing_keys st ⊆ dom (table st) ->
  (forall k row, k ∉ existing_keys st -> table st !! k = Some row ->
                 table st' !! k = Some row)
  /\ (forall k, first_of year batch k = None -> table st' !! k = table st !! k)
  /\ (forall k p, first_of year batch k = Some p ->
        (forall row, k ∈ existing_keys st -> table st !! k = Some row ->
           exists row', table st' !! k = Some row'
                        /\ academic_year row' = academic_year row
                        /\ up_to_date row' p)
        /\ (table st !! k = None ->
            exists row', table st' !! k = Some row'
                         /\ academic_year row' = Some year
                         /\ up_to_date row' p)).
Proof.
  revert st. induction batch as [|r rest IH]; intros st; simpl.
  - intros [= <-] _. repeat split; auto; discriminate.
  - destruct (plan year r) as [[[k p]|]|e] eqn:Hplan.
    + destruct (process_record_keyed year now st r k p Hplan)
        as (st1 & -> & HE & _ & Hframe & Hupd & Hins).
      cbn [bind]. intros Hrest Hdom.
      assert (Hdom1 : existing_keys st1 ⊆ dom (table st1)).
      { rewrite HE. intros k' Hk'. apply elem_of_difference in Hk' as [Hk' Hne].
        apply elem_of_dom. rewrite Hframe by set_solver.
        apply elem_of_dom. auto. }
      destruct (IH _ Hrest Hdom1) as (Hkeep & Hother & Hfirst).
      assert (Hk1 : k ∉ existing_keys st1) by (rewrite HE; set_solver).
      split; [|split].
      * intros k0 row Hout Hrow. apply Hkeep.
        { rewrite HE. set_solver. }
        destruct (decide (k0 = k)) as [->|Hne]; [|by rewrite Hframe].
        specialize (Hins Hout). rewrite Hrow in Hins. by rewrite Hins.
      * intros k0. destruct (decide (k = k0)) as [->|Hne]; [discriminate|].
        intros Hnone. rewrite Hother by assumption. apply Hframe. congruence.
      * intros k0 p0. destruct (decide (k = k0)) as [<-|Hne].
        -- intros [= <-]. split.
           ++ intros row Hin Hrow. specialize (Hupd Hin). rewrite Hrow in Hupd.
              destruct Hupd as (_ & row' & Hrow' & Hyear & Hnew).
              exists row'. split; [|auto]. by apply Hkeep.
           ++ intros Hnone.
              assert (Hout : k ∉ existing_keys st).
              { intros Hin. apply Hdom, elem_of_dom in Hin as [? ?]. congruence. }
              specialize (Hins Hout). rewrite Hnone in Hins.
              destruct Hins as (row' & Hc & Hyear & Hnew).
              exists row'. split; [|auto]. apply Hkeep; [assumption|].
              rewrite Hc. cbn. apply lookup_insert_eq.
        -- intros Hp0. destruct (Hfirst _ _ Hp0) as [Hold Hnew].
           assert (Hsame : table st1 !! k0 = table st !! k0) by (apply Hframe; congruence).
           split.
           ++ intros row Hin Hrow. apply Hold; [rewrite HE; set_solver|congruence].
           ++ intros Hnone. apply Hnew. congruence.
    + rewrite (process_record_skipped _ _ _ _ Hplan). cbn [bind].
      intros Hrest Hdom. exact (IH _ Hrest Hdom).
    + rewrite (process_record_raised _ _ _ _ _ Hplan). discriminate.
Qed.


End Loop.

(** ** The inactivation sweep *)

Section Sweep.
Import PyStr Utils Database Main Reading.

Implicit Types (c : Cursor) (k year now : string).

Lemma fetch_existing_keys_spec c year k :
  k ∈ fetch_existing_keys c year <->
  exists row, active_student_data c !! k = Some row /\ academic_year row = Some year.
Proof.
  unfold fetch_existing_keys. rewrite elem_of_dom. unfold is_Some.
  setoid_rewrite map_lookup_filter_Some. simpl. reflexivity.
Qed.

Lemma swept_row_year now (row : Row) :
  academic_year (swept_row now row) = academic_year row.
Proof.
  unfold swept_row. destruct (status row); [|reflexivity].
  destruct (decide _); reflexivity.
Qed.

Lemma swept_row_done now (row : Row) : sweepable (swept_row now row) = false.
Proof.
  unfold swept_row, sweepable. destruct (status row) as [s|] eqn:Hs.
  - destruct (decide (s = "Inactive")) as [->|Hne]; [by rewrite Hs|reflexivity].
  - by rewrite Hs.
Qed.

Lemma swept_row_unsweepable now (row : Row) :
  sweepable row = false -> swept_row now row = row.
Proof.
  unfold swept_row, sweepable. destruct (status row) as [s|]; [|reflexivity].
  destruct (decide (s = "Inactive")) as [->|Hne]; [reflexivity|].
  destruct (String.eqb_spec s "Inactive"); [contradiction|discriminate].
Qed.

(** One turn of the sweep on a row that is NULL or "Inactive" in [status],
    or on a key without a row, changes nothing. *)
Lemma mark_one_unchanged now c k :
  (forall row, active_student_data c !! k = Some row -> sweepable row = false) ->
  mark_one now c k = c.
Proof.
  intros Hrow. unfold mark_one, sql_update_status.
  destruct (active_student_data c !! k) as [row|]; [|reflexivity].
  specialize (Hrow row eq_refl). unfold sweepable in Hrow.
  destruct (status row) as [s|]; simpl.
  - destruct (decide (PStr s = PStr "Inactive")) as [_|Hne]; [reflexivity|].
    exfalso. apply Hne. f_equal. apply String.eqb_eq. by apply negb_false_iff.
  - reflexivity.
Qed.

(** One turn of the sweep puts [swept_row] in the place of the row of its
    key, and nothing else. *)
Lemma mark_one_table now c k k' :
  active_student_data (mark_one now c k) !! k' =
    if decide (k' = k) then swept_row now <$> active_student_data c !! k'
    else active_student_data c !! k'.
Proof.
  destruct (active_student_data c !! k) as [row|] eqn:Hrow.
  - destruct (sweepable row) eqn:Hsw.
    + unfold mark_one, sql_update_status. rewrite Hrow.
      unfold sweepable in Hsw. unfold swept_row.
      destruct (status row) as [s|] eqn:Hs; [|discriminate]. simpl.
      destruct (String.eqb_spec s "Inactive") as [->|Hne]; [discriminate|].
      rewrite !decide_False by congruence. simpl.
      destruct (decide (k' = k)) as [->|Hne'].
      * rewrite lookup_insert_eq, Hrow. simpl. rewrite Hs.
        rewrite decide_False by congruence. reflexivity.
      * apply lookup_insert_ne. congruence.
    + rewrite mark_one_unchanged by (intros ? ?; congruence).
      destruct (decide (k' = k)) as [->|_]; [|reflexivity].
      rewrite Hrow. simpl. by rewrite swept_row_unsweepable.
  - rewrite mark_one_unchanged by (intros ? ?; congruence).
    destruct (decide (k' = k)) as [->|_]; [|reflexivity]. by rewrite Hrow.
Qed.

Lemma sweep_table now (keys : list string) c k :
  active_student_data (foldl (mark_one now) c keys) !! k =
    if decide (k ∈ keys) then swept_row now <$> active_student_data c !! k
    else active_student_data c !! k.
Proof.
  revert c. induction keys as [|a rest IH]; intros c; cbn [foldl].
  - rewrite decide_False by apply not_elem_of_nil. reflexivity.
  - rewrite IH, mark_one_table.
    destruct (decide (k = a)) as [->|Hne].
    + rewrite (decide_True (P := a ∈ a :: rest)) by apply list_elem_of_here.
      destruct (decide (a ∈ rest)); [|reflexivity].
      destruct (active_student_data c !! a) as [row|]; [simpl|reflexivity].
      by rewrite swept_row_unsweepable by apply swept_row_done.
    + destruct (decide (k ∈ rest)) as [Hin|Hout].
      * rewrite decide_True by (by apply list_elem_of_further). reflexivity.
      * rewrite decide_False; [reflexivity|].
        intros Hin. apply elem_of_cons in Hin as [?|?]; contradiction.
Qed.

(** The table after [mark_records_as_inactive]: the rows of the keys of
    [existing_keys] that are not in [api_keys] are swept, that is, set to
    "Inactive" at [now] unless their status is NULL or "Inactive" already;
    every other row is as before. *)
Lemma mark_records_as_inactive_table now c (existing api : gset string) k :
  active_student_data (mark_records_as_inactive c existing api now) !! k =
    if decide (k ∈ existing ∖ api) then swept_row now <$> active_student_data c !! k
    else active_student_data c !! k.
Proof.
  unfold mark_records_as_inactive.
  destruct (decide (existing ∖ api = ∅)) as [Hempty|_].
  - rewrite Hempty. rewrite decide_False by set_solver. reflexivity.
  - rewrite sweep_table.
    destruct (decide (k ∈ elements (existing ∖ api))) as [Hin|Hout].
    + rewrite decide_True by (by apply elem_of_elements). reflexivity.
    + rewrite decide_False; [reflexivity|]. by rewrite <- elem_of_elements.
Qed.

(** A sweep over rows that are NULL or "Inactive" in [status] changes
    nothing. *)
Lemma mark_records_as_inactive_unchanged now c (existing api : gset string) :
  (forall k row, k ∈ existing ∖ api -> active_student_data c !! k = Some row ->
                 sweepable row = false) ->
  mark_records_as_inactive c existing api now = c.
Proof.
  intros Hrows. unfold mark_records_as_inactive.
  destruct (decide _); [reflexivity|].
  assert (Hall : forall k, k ∈ elements (existing ∖ api) ->
                           forall row, active_student_data c !! k = Some row ->
                                       sweepable row = false).
  { intros k Hk row Hrow. apply elem_of_elements in Hk. eauto. }
  clear Hrows. induction (elements (existing ∖ api)) as [|a rest IH]; [reflexivity|].
  simpl. rewrite mark_one_unchanged by (apply Hall, list_elem_of_here).
  apply IH. intros k Hk. apply Hall. by apply list_elem_of_further.
Qed.

End Sweep.

(** ** The pass *)

Section PassProperties.
Import PyStr Utils Database Main Reading.



End PassProperties.

(** ** The history *)

Section History.
Import PyStr Utils Database Main Reading.

Implicit Types (c : Cursor) (k year now : string).

Lemma mark_one_history now c k :
  student_data_history (mark_one now c k)
    = (student_data_history c ++ sweep_entries now c k)%list.
Proof.
  unfold sweep_entries.
  destruct (active_student_data c !! k) as [row|] eqn:Hrow.
  - destruct (sweepable row) eqn:Hsw.
    + unfold mark_one, sql_update_status. rewrite Hrow.
      unfold sweepable in Hsw. destruct (status row) as [s|]; [|discriminate]. simpl.
      destruct (String.eqb_spec s "Inactive") as [Heq|Hne]; [discriminate|].
      rewrite !decide_False by congruence. reflexivity.
    + rewrite mark_one_unchanged by (intros ? ?; congruence).
      by rewrite app_nil_r.
  - rewrite mark_one_unchanged by (intros ? ?; congruence). by rewrite app_nil_r.
Qed.





(** C3 (inactivation sweep). A vanished key whose row has the status NULL is
    not set to "Inactive" and gets no history entry: the UPDATE asks for
    [status != 'Inactive'], which NULL does not satisfy, so [rowcount] is 0.
    A vanished row with the status "Active" is set to "Inactive" at the time
    of the sweep, with one INACTIVATE entry. *)
Theorem null_status_row_is_not_swept :
  mark_records_as_inactive (mkCursor {[sample_key := sample_row None]} [] [])
                           {[sample_key]} ∅ "2025-06-02 10:00:00"
    = mkCursor {[sample_key := sample_row None]} [] []
  /\ mark_records_as_inactive (mkCursor {[sample_key := sample_row (Some "Active")]} [] [])
                              {[sample_key]} ∅ "2025-06-02 10:00:00"
     = mkCursor
         {[sample_key :=
             mkRow (Some "ABC School") (Some "Inactive") (Some "GRADE 4")
                   (Some "John Doe") (Some "12") (Some "M") (Some "A")
                   (Some "2025-2026") (Some "2025-06-02 10:00:00")]}
         [mkHistory sample_key INACTIVATE (Some "status") (Some "Active")
                    (Some "Inactive") "2025-06-02 10:00:00"]
         [Inactivated sample_key].
Proof. split; vm_compute; reflexivity. Qed.

(** C4 (canonical form of the comparison). The comparison is on [str(old)]
    and [str(new)]: a stored NULL and the incoming text "None" print alike
    and the pass changes nothing, but a stored empty string and the incoming
    text "None" differ, and the pass logs an UPDATE of [status] from the
    empty string to "None" and rewrites the row. *)
Theorem empty_string_differs_from_None :
  main "2025-2026" "2025-06-02 10:00:00"
       (mkCursor {[sample_key := sample_row None]} [] []) [sample_record_none]
    = Committed (mkCursor {[sample_key := sample_row None]} [] [])
  /\ main "2025-2026" "2025-06-02 10:00:00"
          (mkCursor {[sample_key := sample_row (Some "")]} [] []) [sample_record_none]
     = Committed
         (mkCursor
            {[sample_key :=
                mkRow (Some "ABC School") (Some "None") (Some "GRADE 4")
                      (Some "John Doe") (Some "12") (Some "M") (Some "A")
                      (Some "2025-2026") (Some "2025-06-02 10:00:00")]}
            [mkHistory sample_key UPDATE (Some "status") (Some "") (Some "None")
                       "2025-06-02 10:00:00"]
            [Updated sample_key]).
Proof. split; vm_compute; reflexivity. Qed.

(** C8, as stated, fails on the first record of an empty database: the one
    entry appended has "New Record" in [field_changed], not NULL. *)
Lemma insert_entry_field_is_not_null :
  exists st',
    process_record "2025-2026" "2025-06-02 10:00:00"
                   (mkPass empty_db ∅ ∅ 0 0 0) sample_record = Ok st'
    /\ student_data_history (cursor st')
       = [insert_entry_logged sample_key "2025-06-02 10:00:00"]
    /\ student_data_history (cursor st')
       <> [Spec.insert_entry_expected sample_key "2025-06-02 10:00:00"]
    /\ field_changed (insert_entry_logged sample_key "2025-06-02 10:00:00")
       = Some "New Record".
Proof.
  eexists. split; [vm_compute; reflexivity|].
  split; [reflexivity|]. split; [discriminate|reflexivity].
Qed.

(** C8 (shape of the INSERT entry), amended. A valid record whose key is
    neither in [existing_keys] nor in the table is inserted, and exactly one
    history entry is appended for it: change type INSERT, [field_changed]
    "New Record", old value NULL, new value "Initial Insertion". *)
Theorem new_record_logs_one_insert_entry (year now : string) (st : Pass)
    (r r' p : record)
    (Hvalid : validate_student_record r = Valid r')
    (Hclean : clean_record r = Ok p)
    (Hnew : generate_unique_key p year ∉ existing_keys st)
    (Hfree : active_student_data (cursor st) !! generate_unique_key p year = None) :
  exists st',
    process_record year now st r = Ok st'
    /\ is_Some (active_student_data (cursor st') !! generate_unique_key p year)
    /\ student_data_history (cursor st')
       = (student_data_history (cursor st)
            ++ [insert_entry_logged (generate_unique_key p year) now])%list
    /\ writes (cursor st')
       = (writes (cursor st) ++ [Inserted (generate_unique_key p year)])%list
    /\ new_records_count st' = S (new_records_count st).
Proof.
  assert (Hplan : plan year r = Ok (Some (generate_unique_key p year, p))).
  { unfold plan. rewrite Hvalid, Hclean. reflexivity. }
  destruct (process_record_keyed year now st r _ p Hplan)
    as (st' & Hstep & _ & _ & _ & _ & Hins).
  exists st'. split; [assumption|].
  specialize (Hins Hnew). rewrite Hfree in Hins.
  destruct Hins as (row' & Hcur & _). rewrite Hcur. cbn.
  split; [rewrite lookup_insert_eq; eauto|].
  split; [reflexivity|]. split; [reflexivity|].
  unfold process_record in Hstep. rewrite Hvalid, Hclean in Hstep. cbn [bind] in Hstep.
  rewrite decide_False in Hstep by assumption.
  destruct (insert_new_record _ _ _ _ _); [|discriminate].
  injection Hstep as <-. reflexivity.
Qed.

(** The first record of an empty database. *)
Lemma new_record_logs_one_insert_entry_witness :
  exists st',
    process_record "2025-2026" "2025-06-02 10:00:00"
                   (mkPass empty_db ∅ ∅ 0 0 0) sample_record = Ok st'
    /\ student_data_history (cursor st')
       = [insert_entry_logged sample_key "2025-06-02 10:00:00"].
Proof.
  destruct (new_record_logs_one_insert_entry "2025-2026" "2025-06-02 10:00:00"
              (mkPass empty_db ∅ ∅ 0 0 0) sample_record sample_record
              (<["division_name" := PStr "A"]>
                 (<["gender" := PStr "M"]>
                    (<["student_name" := PStr "John Doe"]>
                       (<["grade_name" := PStr "GRADE 4"]>
                          (trim_string <$> sample_record))))))
    as (st' & Hstep & _ & Hhist & _).
  - vm_compute. reflexivity.
  - vm_compute. reflexivity.
  - vm_compute. intros H. inversion H.
  - vm_compute. reflexivity.
  - exists st'. split; [exact Hstep|]. exact Hhist.
Defined.

End History.

(** * Further properties of the code *)

(** ** Definitions used to state them *)

Module Effects.
Import PyStr Utils Database Main Reading.

(** The fields that the comparison of [update_existing_record] finds
    changed, in the order of [fields_to_check]. *)
Definition changed (current : record) (items : list (string * pyval))
  : list (string * pyval) :=
  filter (fun item => str (get current item.1) <> str item.2) items.

(** The entry that the comparison logs for a changed field. *)
Definition update_entry (key now : string) (current : record) (item : string * pyval)
  : HistoryEntry :=
  mkHistory key UPDATE (Some item.1) (to_sql (get current item.1)) (to_sql item.2) now.

(** Two rows agree on the columns that identify the student. *)
Definition same_identity (row row' : Row) : Prop :=
  school_name row' = school_name row
  /\ student_id row' = student_id row
  /\ academic_year row' = academic_year row.

(** The second cursor has every row of the first, with the same identity
    columns, and its history and its log of statements extend those of the
    first. *)
Definition extends (c c' : Cursor) : Prop :=
  (forall k row, active_student_data c !! k = Some row ->
     exists row', active_student_data c' !! k = Some row' /\ same_identity row row')
  /\ (exists entries, student_data_history c' = (student_data_history c ++ entries)%list)
  /\ (exists statements, writes c' = (writes c ++ statements)%list).

(** [academic_year] as [main] computes it from [datetime.now()]: the school
    year starts in May. *)
Definition current_academic_year (current_year current_month : Z) : string :=
  if (5 <=? current_month)%Z
  then pretty current_year ++ "-" ++ pretty (current_year + 1)%Z
  else pretty (current_year - 1)%Z ++ "-" ++ pretty current_year.

End Effects.

(** ** The write paths of database.py *)

Section WritePaths.
Import PyStr Utils Database Main Reading Effects.

Implicit Types (c : Cursor) (p : record) (k year now : string).

Lemma check_fields_history (current : record) k now
    (items : list (string * pyval)) (acc : Cursor * bool) :
  student_data_history (foldl (check_field current k now) acc items).1
    = (student_data_history acc.1
         ++ List.map (update_entry k now current) (changed current items))%list.
Proof.
  revert acc. induction items as [|item rest IH]; intros acc.
  - simpl. by rewrite app_nil_r.
  - cbn [foldl]. rewrite IH. unfold changed, check_field.
    destruct (decide (str (get current item.1) = str item.2)) as [Hsame|Hdiff].
    + by rewrite filter_cons_False by auto.
    + rewrite filter_cons_True by assumption. cbn. by rewrite <- app_assoc.
Qed.

Lemma changed_nil (current : record) (items : list (string * pyval)) :
  changed current items = [] <-> Forall (same_text current) items.
Proof.
  unfold changed, same_text. induction items as [|item rest IH].
  - split; constructor.
  - destruct (decide (str (get current item.1) = str item.2)) as [Hsame|Hdiff].
    + rewrite filter_cons_False by auto. rewrite IH.
      split; [by constructor|by inversion 1].
    + rewrite filter_cons_True by assumption.
      split; [discriminate|]. inversion 1; contradiction.
Qed.

(** If [update_existing_record] returns on a key that has a row, the three
    cleaners it calls returned. *)
Lemma update_existing_record_returns c c' p k now row :
  update_existing_record c p k now = Ok c' ->
  active_student_data c !! k = Some row ->
  exists items, fields_to_check p = Ok items.
Proof.
  unfold update_existing_record, get_current_record_details, fields_to_check.
  intros Hret Hrow. rewrite Hrow in Hret.
  destruct (convert_grade_name _); [cbn [bind] in *|discriminate].
  destruct (clean_student_name _); [cbn [bind] in *|discriminate].
  destruct (extract_division _); [cbn [bind] in *|discriminate].
  eauto.
Qed.

Lemma insert_new_record_returns c c' p k year now :
  insert_new_record c p k year now = Ok c' ->
  exists items, fields_to_check p = Ok items.
Proof.
  unfold insert_new_record, fields_to_check.
  destruct (convert_grade_name _); [cbn [bind] in *|discriminate].
  destruct (clean_student_name _); [cbn [bind] in *|discriminate].
  destruct (extract_division _); [cbn [bind] in *|discriminate].
  eauto.
Qed.

(** What [update_existing_record] does on a key that has a row. *)
Lemma update_existing_record_outcome c p k now row
    (items : list (string * pyval)) :
  fields_to_check p = Ok items ->
  active_student_data c !! k = Some row ->
  exists c',
    update_existing_record c p k now = Ok c'
    /\ student_data_history c'
       = (student_data_history c
            ++ List.map (update_entry k now (current_details row))
                        (changed (current_details row) items))%list
    /\ (changed (current_details row) items = [] -> c' = c)
    /\ (changed (current_details row) items <> [] ->
        writes c' = (writes c ++ [Updated k])%list
        /\ exists row', active_student_data c' = <[k := row']> (active_student_data c)
                        /\ same_identity row row'
                        /\ timestamp row' = Some now
                        /\ changed (current_details row') items = []).
Proof.
  unfold fields_to_check, update_existing_record, get_current_record_details.
  destruct (convert_grade_name _) as [g|]; [cbn [bind]|discriminate].
  destruct (clean_student_name _) as [n|]; [cbn [bind]|discriminate].
  destruct (extract_division _) as [d|]; [cbn [bind]|discriminate].
  intros [= <-] Hrow. rewrite Hrow.
  match goal with |- context [foldl ?f ?a ?l] =>
    set (items := l); set (checked := foldl f a items) end.
  pose proof (check_fields_history (current_details row) k now items (c, false)) as Hhist.
  destruct (check_fields_frame (current_details row) k now items (c, false))
    as [Htable Hwrites].
  fold checked in Hhist, Htable, Hwrites.
  change ((c, false).1) with c in Hhist, Htable, Hwrites.
  destruct checked.2 eqn:Hflag.
  - eexists. split; [reflexivity|]. unfold sql_update. rewrite Htable, Hrow.
    cbn [student_data_history writes active_student_data].
    split; [exact Hhist|]. split.
    + intros Hnone. apply changed_nil in Hnone.
      pose proof (check_fields_same _ k now _ (c, false) Hnone) as Hfold.
      fold checked in Hfold. rewrite Hfold in Hflag. discriminate.
    + intros _. split; [by rewrite Hwrites|].
      eexists. split; [reflexivity|]. split; [by repeat split|].
      split; [reflexivity|]. apply changed_nil.
      repeat constructor; unfold same_text; cbn; apply str_of_sql_to_sql.
  - destruct (check_fields_flag _ _ _ _ _ Hflag) as [_ Hsame].
    pose proof (check_fields_same _ k now _ (c, false) Hsame) as Hfold.
    fold checked in Hfold. rewrite Hfold. cbn [fst snd].
    apply changed_nil in Hsame.
    eexists. split; [reflexivity|]. rewrite Hsame. cbn [List.map]. rewrite app_nil_r.
    split; [reflexivity|]. split; [reflexivity|]. contradiction.
Qed.







End WritePaths.

(** ** What a pass keeps *)

Section Keeps.
Import PyStr Utils Database Main Reading Effects.

Implicit Types (c : Cursor) (st : Pass) (p r : record) (k year now : string).

Lemma same_identity_refl (row : Row) : same_identity row row.
Proof. by repeat split. Qed.

Lemma same_identity_trans (row1 row2 row3 : Row) :
  same_identity row1 row2 -> same_identity row2 row3 -> same_identity row1 row3.
Proof. intros (? & ? & ?) (? & ? & ?). repeat split; congruence. Qed.

Lemma extends_refl c : extends c c.
Proof.
  split; [|split].
  - intros k row Hrow. eauto using same_identity_refl.
  - exists []. by rewrite app_nil_r.
  - exists []. by rewrite app_nil_r.
Qed.

Lemma extends_trans c1 c2 c3 : extends c1 c2 -> extends c2 c3 -> extends c1 c3.
Proof.
  intros (Hrows1 & [h1 Hh1] & [w1 Hw1]) (Hrows2 & [h2 Hh2] & [w2 Hw2]).
  split; [|split].
  - intros k row Hrow. destruct (Hrows1 k row Hrow) as (row2 & Hrow2 & Hid2).
    destruct (Hrows2 k row2 Hrow2) as (row3 & Hrow3 & Hid3).
    eauto using same_identity_trans.
  - exists (h1 ++ h2)%list. by rewrite Hh2, Hh1, <- app_assoc.
  - exists (w1 ++ w2)%list. by rewrite Hw2, Hw1, <- app_assoc.
Qed.

(** Replacing one row by a row with the same identity columns. *)
Lemma extends_replace c c' k row row' :
  active_student_data c !! k = Some row ->
  active_student_data c' = <[k := row']> (active_student_data c) ->
  same_identity row row' ->
  (exists entries, student_data_history c' = (student_data_history c ++ entries)%list) ->
  (exists statements, writes c' = (writes c ++ statements)%list) ->
  extends c c'.
Proof.
  intros Hrow Htable Hid Hhist Hwrites. split; [|by split].
  intros k0 row0 Hrow0. rewrite Htable.
  destruct (decide (k = k0)) as [<-|Hne].
  - rewrite lookup_insert_eq. exists row'. split; [reflexivity|]. congruence.
  - rewrite lookup_insert_ne by assumption. eauto using same_identity_refl.
Qed.

Lemma update_existing_record_extends c c' p k now :
  update_existing_record c p k now = Ok c' -> extends c c'.
Proof.
  intros Hret. destruct (active_student_data c !! k) as [row|] eqn:Hrow.
  - destruct (update_existing_record_returns _ _ _ _ _ _ Hret Hrow) as [items Hitems].
    destruct (update_existing_record_outcome c p k now row items Hitems Hrow)
      as (c1 & Hret1 & Hhist & Hsame & Hdiff).
    rewrite Hret in Hret1. injection Hret1 as <-.
    destruct (changed (current_details row) items) as [|item rest] eqn:Hchanged.
    + rewrite Hsame by reflexivity. apply extends_refl.
    + destruct Hdiff as (Hwrites & row' & Htable & Hid & _); [discriminate|].
      eapply extends_replace; eauto.
  - unfold update_existing_record, get_current_record_details in Hret.
    rewrite Hrow in Hret. injection Hret as <-. apply extends_refl.
Qed.

Lemma insert_new_record_extends c c' p k year now :
  insert_new_record c p k year now = Ok c' -> extends c c'.
Proof.
  intros Hret. destruct (insert_new_record_returns _ _ _ _ _ _ Hret) as [items Hitems].
  destruct (insert_new_record_spec c p k year now items Hitems) as (c1 & Hret1 & Hspec).
  rewrite Hret in Hret1. injection Hret1 as <-.
  destruct (active_student_data c !! k) as [row|] eqn:Hrow.
  - rewrite Hspec. apply extends_refl.
  - destruct Hspec as (row' & -> & _). split; [|split]; cbn; eauto.
    intros k0 row0 Hrow0. exists row0. split; [|apply same_identity_refl].
    rewrite lookup_insert_ne; [assumption|]. congruence.
Qed.

Lemma mark_one_extends now c k : extends c (mark_one now c k).
Proof.
  split; [|split].
  - intros k0 row0 Hrow0. rewrite mark_one_table.
    destruct (decide (k0 = k)) as [->|_]; [|eauto using same_identity_refl].
    rewrite Hrow0. cbn. eexists. split; [reflexivity|].
    unfold swept_row. destruct (status row0); [|apply same_identity_refl].
    destruct (decide _); [apply same_identity_refl|by repeat split].
  - rewrite mark_one_history. eauto.
  - unfold mark_one, sql_update_status.
    destruct (active_student_data c !! k) as [row|]; [|exists []; by rewrite app_nil_r].
    destruct (decide (of_sql (status row) = PStr "Inactive"));
      [exists []; by rewrite app_nil_r|].
    destruct (status row) as [s|]; [|exists []; by rewrite app_nil_r].
    destruct (decide (s = "Inactive")); [exists []; by rewrite app_nil_r|].
    cbn. eauto.
Qed.

Lemma mark_records_as_inactive_extends now c (existing api : gset string) :
  extends c (mark_records_as_inactive c existing api now).
Proof.
  unfold mark_records_as_inactive. destruct (decide _); [apply extends_refl|].
  generalize (elements (existing ∖ api)). intros keys. revert c.
  induction keys as [|a rest IH]; intros c; [apply extends_refl|].
  cbn [foldl]. eapply extends_trans; [apply mark_one_extends|apply IH].
Qed.

Lemma process_record_extends year now st st' r :
  process_record year now st r = Ok st' -> extends (cursor st) (cursor st').
Proof.
  unfold process_record. destruct (validate_student_record r).
  - intros [= <-]. apply extends_refl.
  - destruct (clean_record r) as [p|]; [cbn [bind]|discriminate].
    destruct (decide _).
    + destruct (update_existing_record _ _ _ _) as [c|] eqn:Hupd; [cbn [bind]|discriminate].
      intros [= <-]. eapply update_existing_record_extends. eassumption.
    + destruct (insert_new_record _ _ _ _ _) as [c|] eqn:Hins; [cbn [bind]|discriminate].
      intros [= <-]. eapply insert_new_record_extends. eassumption.
Qed.

Lemma process_records_extends year now (batch : list record) st st' :
  process_records year now st batch = Ok st' -> extends (cursor st) (cursor st').
Proof.
  revert st. induction batch as [|r rest IH]; intros st; cbn [process_records].
  - intros [= <-]. apply extends_refl.
  - destruct (process_record year now st r) as [st1|] eqn:Hstep; [cbn [bind]|discriminate].
    intros Hrest. eapply extends_trans; [|apply IH; eassumption].
    eapply process_record_extends. eassumption.
Qed.

Lemma main_extends year now (db db' : Cursor) (batch : list record) :
  main year now db batch = Committed db' -> extends db db'.
Proof.
  unfold main. destruct batch as [|r0 rest]; [discriminate|].
  destruct (process_records _ _ _ _) as [st1|] eqn:Hloop; [|discriminate].
  intros [= <-]. eapply extends_trans.
  - apply (process_records_extends _ _ _ _ _ Hloop).
  - apply mark_records_as_inactive_extends.
Qed.

(** X4. A committed pass deletes no row and never changes the columns that
    identify a student: every row of the database it started from is still
    there, with the same [school_name], [student_id] and [academic_year]. *)
Theorem pass_keeps_rows_and_identity (year now : string) (db db' : Cursor)
    (batch : list record) (k : string) (row : Row)
    (Hpass : main year now db batch = Committed db')
    (Hrow : active_student_data db !! k = Some row) :
  exists row',
    active_student_data db' !! k = Some row'
    /\ school_name row' = school_name row
    /\ student_id row' = student_id row
    /\ academic_year row' = academic_year row.
Proof.
  destruct (main_extends _ _ _ _ _ Hpass) as (Hrows & _ & _).
  destruct (Hrows k row Hrow) as (row' & Hrow' & Hid). exists row'. split; assumption.
Qed.

Lemma pass_keeps_rows_and_identity_witness :
  exists row',
    active_student_data
      (database_after sample_db
         (main "2025-2026" "2025-06-02 10:00:00" sample_db [sample_record_renamed]))
      !! "ABC School_99_2025-2026_GRADE 1" = Some row'
    /\ student_id row' = Some "99".
Proof.
  destruct (pass_keeps_rows_and_identity "2025-2026" "2025-06-02 10:00:00" sample_db
              (database_after sample_db
                 (main "2025-2026" "2025-06-02 10:00:00" sample_db [sample_record_renamed]))
              [sample_record_renamed] "ABC School_99_2025-2026_GRADE 1"
              (mkRow (Some "ABC School") (Some "Active") (Some "GRADE 1")
                     (Some "Jane Roe") (Some "99") (Some "F") (Some "B")
                     (Some "2025-2026") (Some "2025-06-01 09:00:00")))
    as (row' & Hrow' & _ & Hid & _).
  - vm_compute. reflexivity.
  - vm_compute. reflexivity.
  - exists row'. split; assumption.
Defined.

(** X5. The history is append-only: after a committed pass the history table
    starts with the history there was, entry for entry, and so does the log
    of row-changing statements. *)
Theorem pass_appends_to_history (year now : string) (db db' : Cursor)
    (batch : list record)
    (Hpass : main year now db batch = Committed db') :
  (exists entries,
      student_data_history db' = (student_data_history db ++ entries)%list)
  /\ (exists statements, writes db' = (writes db ++ statements)%list).
Proof.
  destruct (main_extends _ _ _ _ _ Hpass) as (_ & Hhist & Hwrites). by split.
Qed.

Lemma pass_appends_to_history_witness :
  exists entries,
    student_data_history
      (database_after sample_db
         (main "2025-2026" "2025-06-02 10:00:00" sample_db [sample_record_renamed]))
    = (student_data_history sample_db ++ entries)%list.
Proof.
  destruct (pass_appends_to_history "2025-2026" "2025-06-02 10:00:00" sample_db
              (database_after sample_db
                 (main "2025-2026" "2025-06-02 10:00:00" sample_db [sample_record_renamed]))
              [sample_record_renamed])
    as [Hhist _].
  - vm_compute. reflexivity.
  - exact Hhist.
Defined.

End Keeps.

(** ** The database after a committed pass *)

Section AfterPass.
Import PyStr Utils Database Main Reading Effects.

Implicit Types (c db : Cursor) (st : Pass) (p r : record) (k year now : string).

(** A committed pass is the loop, which returned, followed by the sweep. *)
Lemma main_committed year now db db' (batch : list record) :
  main year now db batch = Committed db' ->
  exists st1,
    process_records year now (mkPass db (fetch_existing_keys db year) ∅ 0 0 0) batch
      = Ok st1
    /\ db' = mark_records_as_inactive (cursor st1) (existing_keys st1)
                                      (processed_api_keys st1) now.
Proof.
  unfold main. destruct batch as [|r0 rest]; [discriminate|].
  destruct (process_records _ _ _ _) as [st1|]; [|discriminate].
  intros [= <-]. eauto.
Qed.

Lemma plan_valid year r k p :
  plan year r = Ok (Some (k, p)) <->
  validate_student_record r = Valid r /\ clean_record r = Ok p
  /\ k = generate_unique_key p year.
Proof.
  unfold plan. split.
  - destruct (validate_student_record r) as [|r'] eqn:Hvalid; [discriminate|].
    destruct (valid_record_fields _ _ Hvalid) as [-> _].
    destruct (clean_record r); [cbn [bind]|discriminate].
    intros [= <- <-]. auto.
  - intros (-> & -> & ->). reflexivity.
Qed.

(** The keys of the batch are the keys of its valid records. *)
Lemma keys_of_spec year (batch : list record) k :
  k ∈ keys_of year batch <->
  exists r p, r ∈ batch /\ validate_student_record r = Valid r
              /\ clean_record r = Ok p /\ k = generate_unique_key p year.
Proof.
  induction batch as [|r rest IH]; cbn [keys_of].
  - split; [set_solver|]. intros (r & p & Hin & _). by apply elem_of_nil in Hin.
  - assert (Hrest : k ∈ keys_of year rest ->
              exists r0 p, r0 ∈ r :: rest /\ validate_student_record r0 = Valid r0
                           /\ clean_record r0 = Ok p /\ k = generate_unique_key p year).
    { intros Hk. apply IH in Hk as (r0 & p & Hin & H). exists r0, p.
      split; [by apply list_elem_of_further|assumption]. }
    split.
    + destruct (plan year r) as [[[k' p']|]|] eqn:Hplan; try exact Hrest.
      intros Hk. apply elem_of_union in Hk as [Hk|Hk]; [|auto].
      apply elem_of_singleton in Hk as ->. apply plan_valid in Hplan.
      exists r, p'. split; [apply list_elem_of_here|assumption].
    + intros (r0 & p & Hin & Hvalid & Hclean & ->).
      apply elem_of_cons in Hin as [->|Hin].
      * assert (Hplan : plan year r = Ok (Some (generate_unique_key p year, p))).
        { apply plan_valid. auto. }
        rewrite Hplan. set_solver.
      * assert (Hk : generate_unique_key p year ∈ keys_of year rest).
        { apply IH. exists r0, p. auto. }
        destruct (plan year r) as [[[k' p']|]|]; set_solver.
Qed.

(** The table after a committed pass, from the table before it. *)
Lemma main_table year now db db' (batch : list record) :
  main year now db batch = Committed db' ->
  (forall k row, k ∉ fetch_existing_keys db year ->
                 active_student_data db !! k = Some row ->
                 active_student_data db' !! k = Some row)
  /\ (forall k, k ∉ keys_of year batch ->
        active_student_data db' !! k =
          if decide (k ∈ fetch_existing_keys db year)
          then swept_row now <$> active_student_data db !! k
          else active_student_data db !! k)
  /\ (forall k p, first_of year batch k = Some p ->
        exists row, active_student_data db' !! k = Some row
                    /\ (academic_year row = Some year -> up_to_date row p)).
Proof.
  intros Hpass. destruct (main_committed _ _ _ _ _ Hpass) as (st1 & Hloop & ->).
  destruct (process_records_key_sets _ _ _ _ _ Hloop) as [HE1 HA1].
  destruct (process_records_table _ _ _ _ _ Hloop) as (Hkeep & Hother & Hfirst).
  { intros k Hk. apply fetch_existing_keys_spec in Hk as (row & Hrow & _).
    apply elem_of_dom. eauto. }
  cbn in HE1, HA1, Hkeep, Hother, Hfirst.
  split; [|split].
  - intros k row Hout Hrow. rewrite mark_records_as_inactive_table.
    rewrite decide_False by (rewrite HE1; set_solver). by apply Hkeep.
  - intros k Hk. rewrite mark_records_as_inactive_table.
    assert (Hnone : first_of year batch k = None).
    { destruct (first_of year batch k) eqn:Hf; [|reflexivity].
      exfalso. apply Hk. apply first_of_keys. eauto. }
    rewrite (Hother k Hnone).
    destruct (decide (k ∈ fetch_existing_keys db year)) as [Hin|Hout].
    + rewrite decide_True by (rewrite HE1, HA1; set_solver). reflexivity.
    + rewrite decide_False by (rewrite HE1; set_solver). reflexivity.
  - intros k p Hp.
    assert (Hk : k ∈ keys_of year batch) by (apply first_of_keys; eauto).
    rewrite mark_records_as_inactive_table.
    rewrite decide_False by (rewrite HA1; set_solver).
    destruct (Hfirst k p Hp) as [Hold Hnew].
    destruct (active_student_data db !! k) as [row|] eqn:Hrow.
    + destruct (decide (k ∈ fetch_existing_keys db year)) as [Hin|Hout].
      * destruct (Hold row Hin eq_refl) as (row' & -> & _ & Hfresh). eauto.
      * exists row. split; [by apply Hkeep|].
        intros Hyear. exfalso. apply Hout. apply fetch_existing_keys_spec. eauto.
    + destruct (Hnew eq_refl) as (row' & -> & _ & Hfresh). eauto.
Qed.

(** X6. A pass works on its academic year only: a row whose
    [academic_year] is not the year of the pass is, after a committed pass,
    exactly the row it was, even when a record of the batch has its key. *)
Theorem pass_leaves_other_years_alone (year now : string) (db db' : Cursor)
    (batch : list record) (k : string) (row : Row)
    (Hpass : main year now db batch = Committed db')
    (Hrow : active_student_data db !! k = Some row)
    (Hyear : academic_year row <> Some year) :
  active_student_data db' !! k = Some row.
Proof.
  destruct (main_table _ _ _ _ _ Hpass) as (Hkeep & _ & _).
  apply Hkeep; [|assumption].
  intros Hin. apply fetch_existing_keys_spec in Hin as (row' & Hrow' & Hyear').
  congruence.
Qed.




End AfterPass.

(** *** Sample runs *)

(** The cleaned copy of [sample_record]. *)
Definition sample_cleaned : record :=
  <["division_name" := PStr "A"]>
    (<["gender" := PStr "M"]>
       (<["student_name" := PStr "John Doe"]>
          (<["grade_name" := PStr "GRADE 4"]> (Utils.trim_string <$> sample_record)))).

(** The database after a pass over [sample_db] with a batch. *)
Definition sample_pass (year : string) (batch : list record) : Database.Cursor :=
  Main.database_after sample_db (Main.main year "2025-06-02 10:00:00" sample_db batch).

Section SampleRuns.
Import PyStr Utils Database Main Reading Effects.

(** A pass of the next academic year leaves the rows of this one alone. *)
Lemma pass_leaves_other_years_alone_witness :
  active_student_data (sample_pass "2026-2027" [sample_record]) !! sample_key
    = Some (mkRow (Some "ABC School") (Some "Active") (Some "GRADE 4")
                  (Some "J Doe") (Some "12") (Some "M") (Some "A")
                  (Some "2025-2026") (Some "2025-06-01 09:00:00")).
Proof.
  apply (pass_leaves_other_years_alone "2026-2027" "2025-06-02 10:00:00" sample_db
           (sample_pass "2026-2027" [sample_record]) [sample_record]).
  - vm_compute. reflexivity.
  - vm_compute. reflexivity.
  - cbn. discriminate.
Defined.




End SampleRuns.

(** ** The loop's bookkeeping and the sweep *)

Section Bookkeeping.
Import PyStr Utils Database Main Reading Effects.

Implicit Types (c : Cursor) (st : Pass) (p r : record) (k year now : string).

(** The validator rejects the record. *)
Definition is_invalid (r : record) : bool :=
  match validate_student_record r with
  | Invalid _ => true
  | Valid _ => false
  end.

Lemma process_record_counters year now st st' r :
  process_record year now st r = Ok st' ->
  new_records_count st' + updated_records_count st' + skipped_invalid_records_count st'
    = S (new_records_count st + updated_records_count st
         + skipped_invalid_records_count st)
  /\ skipped_invalid_records_count st'
     = skipped_invalid_records_count st + (if is_invalid r then 1 else 0).
Proof.
  unfold process_record, is_invalid. destruct (validate_student_record r).
  - intros [= <-]. cbn. lia.
  - destruct (clean_record r) as [p|]; [cbn [bind]|discriminate].
    destruct (decide _).
    + destruct (update_existing_record _ _ _ _); [cbn [bind]|discriminate].
      intros [= <-]. cbn. lia.
    + destruct (insert_new_record _ _ _ _ _); [cbn [bind]|discriminate].
      intros [= <-]. cbn. lia.
Qed.

(** X10. The three counters of the summary line account for every record:
    when the loop returns, the sum of [new_records_count],
    [updated_records_count] and [skipped_invalid_records_count] has grown by
    the length of the batch, and [skipped_invalid_records_count] by the
    number of records that the validator rejects. *)
Theorem counters_account_for_every_record (year now : string) (st st' : Pass)
    (batch : list record)
    (Hloop : process_records year now st batch = Ok st') :
  new_records_count st' + updated_records_count st' + skipped_invalid_records_count st'
    = new_records_count st + updated_records_count st
      + skipped_invalid_records_count st + length batch
  /\ skipped_invalid_records_count st'
     = skipped_invalid_records_count st + length (List.filter is_invalid batch).
Proof.
  revert st Hloop. induction batch as [|r rest IH]; intros st; cbn [process_records].
  - intros [= <-]. cbn. lia.
  - destruct (process_record year now st r) as [st1|] eqn:Hstep; [cbn [bind]|discriminate].
    intros Hrest. destruct (process_record_counters _ _ _ _ _ Hstep) as [Hsum Hskip].
    destruct (IH _ Hrest) as [Hsum' Hskip'].
    cbn [length List.filter]. destruct (is_invalid r); cbn [length]; lia.
Qed.

Lemma counters_account_for_every_record_witness :
  exists st',
    process_records "2025-2026" "2025-06-02 10:00:00"
      (mkPass sample_db (fetch_existing_keys sample_db "2025-2026") ∅ 0 0 0)
      [sample_record; delete "student_id" sample_record; sample_record_renamed] = Ok st'
    /\ new_records_count st' + updated_records_count st'
       + skipped_invalid_records_count st' = 3
    /\ skipped_invalid_records_count st' = 1.
Proof.
  eexists. split; [vm_compute; reflexivity|].
  match goal with
  | |- new_records_count ?s + _ + _ = _ /\ _ =>
      destruct (counters_account_for_every_record "2025-2026" "2025-06-02 10:00:00"
                  (mkPass sample_db (fetch_existing_keys sample_db "2025-2026") ∅ 0 0 0) s
                  [sample_record; delete "student_id" sample_record;
                   sample_record_renamed])
        as [Hsum Hskip]
  end.
  - vm_compute. reflexivity.
  - split; [rewrite Hsum|rewrite Hskip]; vm_compute; reflexivity.
Defined.

(** X11. When the loop returns, [processed_api_keys] has gained exactly the
    keys of the valid records of the batch, and these keys, and no others,
    have left [existing_keys]; so if the loop started with no processed key,
    the two sets are disjoint and the difference that
    [mark_records_as_inactive] takes removes nothing. *)
Theorem key_sets_after_the_loop (year now : string) (st st' : Pass)
    (batch : list record)
    (Hloop : process_records year now st batch = Ok st') :
  (forall k, k ∈ processed_api_keys st' <->
     k ∈ processed_api_keys st
     \/ exists r p, r ∈ batch /\ validate_student_record r = Valid r
                    /\ clean_record r = Ok p /\ k = generate_unique_key p year)
  /\ (forall k, k ∈ existing_keys st' <->
        k ∈ existing_keys st
        /\ ~ exists r p, r ∈ batch /\ validate_student_record r = Valid r
                         /\ clean_record r = Ok p /\ k = generate_unique_key p year)
  /\ (processed_api_keys st = ∅ ->
      existing_keys st' ∖ processed_api_keys st' = existing_keys st').
Proof.
  destruct (process_records_key_sets _ _ _ _ _ Hloop) as [HE HA].
  split; [|split].
  - intros k. rewrite HA, elem_of_union, keys_of_spec. tauto.
  - intros k. rewrite HE, elem_of_difference, keys_of_spec. tauto.
  - intros Hempty. rewrite HE, HA, Hempty. set_solver.
Qed.

Lemma key_sets_after_the_loop_witness :
  exists st',
    process_records "2025-2026" "2025-06-02 10:00:00"
      (mkPass sample_db (fetch_existing_keys sample_db "2025-2026") ∅ 0 0 0)
      [sample_record] = Ok st'
    /\ existing_keys st' ∖ processed_api_keys st' = existing_keys st'.
Proof.
  eexists. split; [vm_compute; reflexivity|].
  eapply (key_sets_after_the_loop "2025-2026" "2025-06-02 10:00:00"
            (mkPass sample_db (fetch_existing_keys sample_db "2025-2026") ∅ 0 0 0) _
            [sample_record]).
  - vm_compute. reflexivity.
  - reflexivity.
Defined.



(** X14. The sweep is idempotent: a second [mark_records_as_inactive] with
    the same key sets, at any time, changes nothing. *)
Theorem sweep_twice_is_sweep_once (now now' : string) (c : Cursor)
    (existing api : gset string) :
  mark_records_as_inactive (mark_records_as_inactive c existing api now)
                           existing api now'
    = mark_records_as_inactive c existing api now.
Proof.
  apply mark_records_as_inactive_unchanged. intros k row Hk.
  rewrite mark_records_as_inactive_table, decide_True by assumption.
  destruct (active_student_data c !! k) as [row0|]; [|discriminate].
  intros [= <-]. apply swept_row_done.
Qed.

End Bookkeeping.

(** ** The cleaners of utils.py on their own results *)

Section Strings.
Import PyStr.

Implicit Types (c : ascii) (s r : string) (b : bool).

(** *** Characters *)

Ltac each_char c := destruct c as [[] [] [] [] [] [] [] []]; reflexivity.

Lemma is_space_upper_char c : is_space (upper_char c) = is_space c.
Proof. each_char c. Qed.

Lemma is_space_lower_char c : is_space (lower_char c) = is_space c.
Proof. each_char c. Qed.

Lemma is_alpha_upper_char c : is_alpha (upper_char c) = is_alpha c.
Proof. each_char c. Qed.

Lemma is_alpha_lower_char c : is_alpha (lower_char c) = is_alpha c.
Proof. each_char c. Qed.

Lemma is_word_upper_char c : is_word (upper_char c) = is_word c.
Proof. each_char c. Qed.

Lemma upper_char_idem c : upper_char (upper_char c) = upper_char c.
Proof. each_char c. Qed.

Lemma lower_char_idem c : lower_char (lower_char c) = lower_char c.
Proof. each_char c. Qed.

Lemma upper_char_not_alpha c : is_alpha c = false -> upper_char c = c.
Proof. destruct c as [[] [] [] [] [] [] [] []]; (reflexivity || discriminate). Qed.

Lemma is_space_not_alpha c : is_space c = true -> is_alpha c = false.
Proof. destruct c as [[] [] [] [] [] [] [] []]; (reflexivity || discriminate). Qed.

Lemma is_space_space : is_space " "%char = true.
Proof. reflexivity. Qed.

(** *** [strip] *)

Lemma all_space_rstrip s : all_space (rstrip s) = all_space s.
Proof.
  induction s as [|c r IH]; [reflexivity|].
  cbn [rstrip]. destruct (all_space (String c r)) eqn:Hall; [reflexivity|].
  cbn [all_space] in *. by rewrite IH.
Qed.

Lemma rstrip_all_space s : all_space s = true -> rstrip s = "".
Proof. destruct s as [|c r]; [reflexivity|]. cbn [rstrip]. by intros ->. Qed.

Lemma rstrip_idem s : rstrip (rstrip s) = rstrip s.
Proof.
  induction s as [|c r IH]; [reflexivity|].
  cbn [rstrip]. destruct (all_space (String c r)) eqn:Hall; [reflexivity|].
  cbn [rstrip]. cbn [all_space] in *. rewrite all_space_rstrip, Hall. by rewrite IH.
Qed.

Lemma lstrip_idem s : lstrip (lstrip s) = lstrip s.
Proof.
  induction s as [|c r IH]; [reflexivity|].
  cbn [lstrip]. destruct (is_space c) eqn:Hc; [assumption|].
  cbn [lstrip]. by rewrite Hc.
Qed.

(** Taking the trailing white space off leaves the front as it is. *)
Lemma lstrip_rstrip s : lstrip (rstrip s) = rstrip (lstrip s).
Proof.
  induction s as [|c r IH]; [reflexivity|].
  cbn [rstrip lstrip]. destruct (all_space (String c r)) eqn:Hall.
  - cbn [all_space] in Hall. apply andb_prop in Hall as [Hc Hr]. rewrite Hc.
    cbn [lstrip]. rewrite <- IH. by rewrite (rstrip_all_space r Hr).
  - destruct (is_space c) eqn:Hc.
    + cbn [lstrip]. rewrite Hc. assumption.
    + cbn [lstrip rstrip]. by rewrite Hc, Hall.
Qed.

Lemma strip_idem s : strip (strip s) = strip s.
Proof.
  unfold strip. by rewrite lstrip_rstrip, lstrip_idem, rstrip_idem.
Qed.

(** *** A map on characters that keeps white space *)

Lemma all_space_map (f : ascii -> ascii) s :
  (forall c, is_space (f c) = is_space c) -> all_space (map f s) = all_space s.
Proof.
  intros Hf. induction s as [|c r IH]; [reflexivity|].
  cbn [map all_space]. by rewrite Hf, IH.
Qed.

Lemma lstrip_map (f : ascii -> ascii) s :
  (forall c, is_space (f c) = is_space c) -> lstrip (map f s) = map f (lstrip s).
Proof.
  intros Hf. induction s as [|c r IH]; [reflexivity|].
  cbn [map lstrip]. rewrite Hf. by destruct (is_space c).
Qed.

Lemma rstrip_map (f : ascii -> ascii) s :
  (forall c, is_space (f c) = is_space c) -> rstrip (map f s) = map f (rstrip s).
Proof.
  intros Hf. induction s as [|c r IH]; [reflexivity|].
  cbn [map rstrip].
  change (String (f c) (map f r)) with (map f (String c r)).
  rewrite (all_space_map f _ Hf). destruct (all_space (String c r)); [reflexivity|].
  cbn [map]. by rewrite IH.
Qed.

Lemma strip_upper s : strip (upper s) = upper (strip s).
Proof.
  unfold strip, upper.
  by rewrite lstrip_map, rstrip_map by apply is_space_upper_char.
Qed.

Lemma upper_idem s : upper (upper s) = upper s.
Proof.
  unfold upper. induction s as [|c r IH]; [reflexivity|].
  cbn [map]. by rewrite upper_char_idem, IH.
Qed.

End Strings.

Section NameCleaner.
Import PyStr.

Implicit Types (c : ascii) (s r : string) (b p : bool).

(** *** [re.sub(r'\s+', ' ', s)] *)

Lemma all_space_collapse_from b s : all_space (collapse_from b s) = all_space s.
Proof.
  revert b. induction s as [|c r IH]; intros b; [reflexivity|].
  cbn [collapse_from all_space]. destruct (is_space c) eqn:Hc.
  - destruct b; cbn [all_space]; by rewrite ?is_space_space, IH.
  - cbn [all_space]. by rewrite Hc.
Qed.

Lemma collapse_from_idem b s :
  collapse_from b (collapse_from b s) = collapse_from b s.
Proof.
  revert b. induction s as [|c r IH]; intros b; [reflexivity|].
  cbn [collapse_from]. destruct (is_space c) eqn:Hc.
  - destruct b; [apply IH|].
    cbn [collapse_from]. rewrite is_space_space. by rewrite IH.
  - cbn [collapse_from]. by rewrite Hc, IH.
Qed.

Lemma lstrip_collapse_from b s :
  lstrip (collapse_from b s) = collapse_from false (lstrip s).
Proof.
  revert b. induction s as [|c r IH]; intros b; [reflexivity|].
  cbn [collapse_from lstrip]. destruct (is_space c) eqn:Hc.
  - destruct b; [apply IH|]. cbn [lstrip]. rewrite is_space_space. apply IH.
  - cbn [lstrip collapse_from]. by rewrite Hc.
Qed.

Lemma rstrip_collapse_from b s :
  rstrip (collapse_from b s) = collapse_from b (rstrip s).
Proof.
  revert b. induction s as [|c r IH]; intros b; [reflexivity|].
  cbn [rstrip]. destruct (all_space (String c r)) eqn:Hall.
  - apply rstrip_all_space. by rewrite all_space_collapse_from.
  - cbn [collapse_from]. destruct (is_space c) eqn:Hc.
    + cbn [all_space] in Hall. rewrite Hc in Hall. cbn in Hall.
      destruct b; [apply IH|].
      cbn [rstrip all_space]. rewrite is_space_space, all_space_collapse_from, Hall.
      cbn. by rewrite IH.
    + cbn [rstrip all_space]. rewrite Hc. cbn. by rewrite IH.
Qed.

Lemma strip_collapse_spaces s :
  strip (collapse_spaces s) = collapse_spaces (strip s).
Proof.
  unfold strip, collapse_spaces.
  by rewrite lstrip_collapse_from, rstrip_collapse_from.
Qed.

(** *** [s.title()] *)

Lemma all_space_title_from p s : all_space (title_from p s) = all_space s.
Proof.
  revert p. induction s as [|c r IH]; intros p; [reflexivity|].
  cbn [title_from]. destruct (is_alpha c); cbn [all_space]; rewrite IH; [|reflexivity].
  destruct p; by rewrite ?is_space_lower_char, ?is_space_upper_char.
Qed.

Lemma title_from_idem p s : title_from p (title_from p s) = title_from p s.
Proof.
  revert p. induction s as [|c r IH]; intros p; [reflexivity|].
  cbn [title_from]. destruct (is_alpha c) eqn:Hc.
  - cbn [title_from]. destruct p.
    + by rewrite is_alpha_lower_char, Hc, lower_char_idem, IH.
    + by rewrite is_alpha_upper_char, Hc, upper_char_idem, IH.
  - cbn [title_from]. by rewrite Hc, IH.
Qed.

(** Inside a run of white space the previous character is no letter. *)
Lemma collapse_from_title_from b p s :
  (b = true -> p = false) ->
  collapse_from b (title_from p s) = title_from p (collapse_from b s).
Proof.
  revert b p. induction s as [|c r IH]; intros b p Hbp; [reflexivity|].
  cbn [title_from collapse_from]. destruct (is_space c) eqn:Hc.
  - rewrite (is_space_not_alpha c Hc). cbn [collapse_from]. rewrite Hc.
    destruct b.
    + rewrite (Hbp eq_refl). by apply IH.
    + cbn [title_from]. rewrite (is_space_not_alpha _ is_space_space).
      f_equal. by apply IH.
  - destruct (is_alpha c) eqn:Ha.
    + cbn [collapse_from title_from]. rewrite Ha.
      assert (Hs : is_space (if p then lower_char c else upper_char c) = false).
      { destruct p; by rewrite ?is_space_lower_char, ?is_space_upper_char. }
      rewrite Hs. f_equal. apply IH. discriminate.
    + cbn [collapse_from title_from]. rewrite Hc, Ha. f_equal. apply IH. discriminate.
Qed.

Lemma lstrip_title s : lstrip (title s) = title (lstrip s).
Proof.
  unfold title. induction s as [|c r IH]; [reflexivity|].
  cbn [title_from lstrip]. destruct (is_space c) eqn:Hc.
  - rewrite (is_space_not_alpha c Hc). cbn [lstrip]. by rewrite Hc.
  - destruct (is_alpha c) eqn:Ha; cbn [lstrip title_from].
    + by rewrite is_space_upper_char, Hc, Ha.
    + by rewrite Hc, Ha.
Qed.

Lemma rstrip_title_from p s : rstrip (title_from p s) = title_from p (rstrip s).
Proof.
  revert p. induction s as [|c r IH]; intros p; [reflexivity|].
  cbn [title_from rstrip all_space]. destruct (is_alpha c) eqn:Ha.
  - cbn [rstrip all_space]. rewrite all_space_title_from.
    assert (Hs : is_space (if p then lower_char c else upper_char c) = is_space c).
    { destruct p; by rewrite ?is_space_lower_char, ?is_space_upper_char. }
    rewrite Hs. destruct (is_space c && all_space r); [reflexivity|].
    cbn [title_from]. by rewrite Ha, IH.
  - cbn [rstrip all_space]. rewrite all_space_title_from.
    destruct (is_space c && all_space r); [reflexivity|].
    cbn [title_from]. by rewrite Ha, IH.
Qed.

Lemma strip_title s : strip (title s) = title (strip s).
Proof.
  unfold strip. rewrite lstrip_title. unfold title. apply rstrip_title_from.
Qed.

End NameCleaner.

Section CleanTwice.
Import PyStr Utils.

Implicit Types (c : ascii) (s r : string) (v : pyval).

(** Every character of the string is of the class. *)
Fixpoint all_chars (p : ascii -> bool) (s : string) : bool :=
  match s with
  | EmptyString => true
  | String c r => p c && all_chars p r
  end.

(** Text of ASCII characters, on which the functions of [PyStr] are the
    methods of Python's [str] and the classes of [re]: beyond it Python
    follows Unicode (a character may grow when it is raised, and more
    characters are letters or white space). *)
Definition is_ascii (c : ascii) : bool := Nat.ltb (code c) 128.

Definition ascii_text (s : string) : bool := all_chars is_ascii s.

Definition ascii_value (v : pyval) : bool :=
  match v with
  | PStr s => ascii_text s
  | _ => true
  end.

Lemma all_chars_take_while (p : ascii -> bool) s : all_chars p (take_while p s) = true.
Proof.
  induction s as [|c r IH]; [reflexivity|].
  cbn [take_while]. destruct (p c) eqn:Hc; [|reflexivity].
  cbn [all_chars]. by rewrite Hc.
Qed.

Lemma take_while_all_chars (p : ascii -> bool) s :
  all_chars p s = true -> take_while p s = s.
Proof.
  induction s as [|c r IH]; [reflexivity|].
  cbn [all_chars take_while]. intros [-> Hr]%andb_prop. by rewrite IH.
Qed.

Lemma all_chars_upper (p : ascii -> bool) s :
  (forall c, p (upper_char c) = p c) ->
  all_chars p (upper s) = all_chars p s.
Proof.
  intros Hp. unfold upper. induction s as [|c r IH]; [reflexivity|].
  cbn [map all_chars]. by rewrite Hp, IH.
Qed.

Lemma upper_no_alpha s :
  all_chars (fun c => negb (is_alpha c)) s = true -> upper s = s.
Proof.
  unfold upper. induction s as [|c r IH]; [reflexivity|].
  cbn [all_chars map]. intros [Hc Hr]%andb_prop.
  rewrite IH by assumption. rewrite upper_char_not_alpha; [reflexivity|].
  by apply negb_true_iff.
Qed.

Lemma dict_get_cases (d : list (string * string)) (k dflt : string) :
  dict_get d k dflt = dflt \/ In (k, dict_get d k dflt) d.
Proof.
  induction d as [|[k' v'] d IH]; [by left|].
  cbn [dict_get]. destruct (String.eqb_spec k' k) as [->|Hne].
  - right. by left.
  - destruct IH as [IH|IH]; [by left|right; by right].
Qed.

(** *** [trim_string] *)

(** X15. [trim_string] is idempotent: trimming a trimmed value changes
    nothing. The loop of [main] trims every value of a record, and
    [insert_new_record] and [update_existing_record] trim [status],
    [school_name] and [student_id] again. *)
Theorem trim_string_twice v : trim_string (trim_string v) = trim_string v.
Proof. destruct v; cbn; by rewrite ?strip_idem. Qed.

(** *** [clean_student_name] *)

Lemma clean_name_twice s :
  title (strip (collapse_spaces (title (strip (collapse_spaces s)))))
    = title (strip (collapse_spaces s)).
Proof.
  unfold collapse_spaces at 1. unfold title at 2.
  rewrite collapse_from_title_from by discriminate.
  fold (title (collapse_from false (strip (collapse_spaces s)))).
  rewrite strip_title. unfold title. rewrite title_from_idem.
  fold (collapse_spaces (strip (collapse_spaces s))).
  rewrite <- strip_collapse_spaces, strip_idem.
  unfold collapse_spaces. by rewrite collapse_from_idem.
Qed.

(** X16. On ASCII text [clean_student_name] is idempotent: cleaning a
    cleaned name gives the same name, and a value on which the first call
    raises raises. So the second cleaning in database.py does not alter the
    name that [main] cleaned. *)
Theorem clean_student_name_twice v :
  ascii_value v = true ->
  (n <-! clean_student_name v ;; clean_student_name n) = clean_student_name v.
Proof.
  intros _. destruct v as [|z|s]; try reflexivity.
  cbn. by rewrite clean_name_twice.
Qed.

Lemma clean_student_name_twice_witness :
  ascii_value (PStr "  o'neil   mc-kay ") = true
  /\ clean_student_name (PStr "  o'neil   mc-kay ") = Ok (PStr "O'Neil Mc-Kay")
  /\ (n <-! clean_student_name (PStr "  o'neil   mc-kay ") ;; clean_student_name n)
     = clean_student_name (PStr "  o'neil   mc-kay ").
Proof.
  split; [reflexivity|]. split; [by vm_compute|].
  apply clean_student_name_twice. reflexivity.
Defined.

(** *** [convert_grade_name] *)

Lemma upper_nonempty s : s <> "" -> upper s <> "".
Proof. destruct s; [contradiction|discriminate]. Qed.

Lemma match_grade_GRADE t :
  match_grade upper_char ("GRADE " ++ t) =
    match take_while is_word t with
    | EmptyString => None
    | tok => Some tok
    end.
Proof. reflexivity. Qed.

Lemma convert_grade_str_twice s :
  strip s = s -> convert_grade_str (convert_grade_str s) = convert_grade_str s.
Proof.
  intros Hs. unfold convert_grade_str at 2 3.
  destruct (match_grade upper_char s) as [tok|] eqn:Hmatch.
  - assert (Htok : all_chars is_word tok = true /\ tok <> "").
    { unfold match_grade in Hmatch.
      destruct (strip_prefix upper_char "GRADE " s) as [rest|]; [|discriminate].
      pose proof (all_chars_take_while is_word rest) as Hall.
      destruct (take_while is_word rest); [discriminate|].
      injection Hmatch as <-. split; [assumption|discriminate]. }
    destruct Htok as [Hword Hne].
    assert (HU : all_chars is_word (upper tok) = true /\ upper tok <> ""
                 /\ upper (upper tok) = upper tok).
    { split; [|split].
      - by rewrite all_chars_upper by apply is_word_upper_char.
      - by apply upper_nonempty.
      - apply upper_idem. }
    cbv zeta. remember (upper tok) as U eqn:HUdef. clear HUdef.
    destruct HU as (HUword & HUne & HUup).
    pose proof (dict_get_cases grade_mapping U U) as Hcases.
    remember (dict_get grade_mapping U U) as t eqn:Ht.
    destruct Hcases as [Hdflt|Hin].
    + rewrite Hdflt. unfold convert_grade_str. rewrite match_grade_GRADE.
      rewrite (take_while_all_chars is_word U HUword).
      destruct U as [|c r] eqn:HUeq; [contradiction|].
      cbv zeta. rewrite HUup. by rewrite <- Ht, Hdflt.
    + cbn in Hin.
      repeat (destruct Hin as [Hin|Hin];
              [injection Hin as HUk Hv; rewrite <- Hv; try (vm_compute; reflexivity);
               exfalso; rewrite <- HUk in HUup; vm_compute in HUup; discriminate|]).
      contradiction.
  - rewrite Hs.
    pose proof (dict_get_cases grade_mapping (upper s) s) as Hcases.
    remember (dict_get grade_mapping (upper s) s) as t eqn:Ht.
    destruct Hcases as [Hdflt|Hin].
    + rewrite Hdflt. unfold convert_grade_str. rewrite Hmatch, Hs.
      by rewrite <- Ht.
    + cbn in Hin.
      repeat (destruct Hin as [Hin|Hin];
              [injection Hin as HUk Hv; rewrite <- Hv; vm_compute; reflexivity|]).
      contradiction.
Qed.

(** X17. On a trimmed value of ASCII text [convert_grade_name] is
    idempotent: converting the converted grade gives the same grade (and a
    value on which the first call raises raises). [main] converts the
    trimmed grade, and [generate_unique_key], [insert_new_record] and
    [update_existing_record] convert the result again. *)
Theorem convert_grade_name_twice v :
  ascii_value v = true ->
  (g <-! convert_grade_name (trim_string v) ;; convert_grade_name g)
    = convert_grade_name (trim_string v).
Proof.
  intros _. destruct v as [|z|s]; try reflexivity.
  cbn. by rewrite convert_grade_str_twice by apply strip_idem.
Qed.

Lemma convert_grade_name_twice_witness :
  ascii_value (PStr " grade iv ") = true
  /\ convert_grade_name (trim_string (PStr " grade iv ")) = Ok (PStr "GRADE 4")
  /\ (g <-! convert_grade_name (trim_string (PStr " grade iv ")) ;; convert_grade_name g)
     = convert_grade_name (trim_string (PStr " grade iv ")).
Proof.
  split; [reflexivity|]. split; [by vm_compute|].
  apply convert_grade_name_twice. reflexivity.
Defined.

End CleanTwice.

Section DivisionAndRecord.
Import PyStr Utils Database Main Reading.

Implicit Types (c : ascii) (s r : string) (v : pyval).

(** *** [extract_division] *)

Lemma drop_while_cases (q : ascii -> bool) s :
  (drop_while q s = "" /\ all_chars q s = true)
  \/ exists c r, drop_while q s = String c r /\ q c = false.
Proof.
  induction s as [|c r IH]; [by left|].
  cbn [drop_while all_chars]. destruct (q c) eqn:Hc; [|right; eauto].
  destruct IH as [[-> ->]|IH]; [by left|by right].
Qed.

Lemma search_alpha_None s :
  search_alpha s = None -> all_chars (fun c => negb (is_alpha c)) s = true.
Proof.
  unfold search_alpha.
  destruct (drop_while_cases (fun c => negb (is_alpha c)) s)
    as [[_ Hall]|(c & r & -> & Hc)]; [done|].
  apply negb_false_iff in Hc. cbn [take_while]. rewrite Hc. discriminate.
Qed.

Lemma search_alpha_Some s m :
  search_alpha s = Some m -> m <> "" /\ all_chars is_alpha m = true.
Proof.
  unfold search_alpha.
  pose proof (all_chars_take_while is_alpha
                (drop_while (fun c => negb (is_alpha c)) s)) as Hall.
  destruct (take_while is_alpha _); [discriminate|].
  intros [= <-]. split; [discriminate|assumption].
Qed.

Lemma search_alpha_letters m :
  m <> "" -> all_chars is_alpha m = true -> search_alpha m = Some m.
Proof.
  intros Hne Hall. unfold search_alpha. destruct m as [|c r]; [contradiction|].
  cbn [all_chars] in Hall. apply andb_prop in Hall as [Hc Hr].
  cbn [drop_while]. rewrite Hc. cbn [negb take_while]. rewrite Hc.
  by rewrite (take_while_all_chars is_alpha r Hr).
Qed.

Lemma extract_division_str_twice s (d : pyval) :
  strip s = s ->
  extract_division (PStr s) = Ok d -> extract_division d = Ok d.
Proof.
  intros Hs. unfold extract_division at 1. cbn [truthy].
  destruct (String.eqb_spec s "") as [->|Hne]; cbn [negb].
  { intros [= <-]. reflexivity. }
  destruct (search_alpha s) as [m|] eqn:Hsearch.
  - intros [= <-]. destruct (search_alpha_Some _ _ Hsearch) as [Hm Hall].
    unfold extract_division. cbn [truthy].
    destruct (String.eqb_spec (upper m) "") as [Hempty|_].
    { exfalso. by apply (upper_nonempty m Hm). }
    cbn [negb]. rewrite search_alpha_letters.
    + by rewrite upper_idem.
    + by apply upper_nonempty.
    + by rewrite all_chars_upper by apply is_alpha_upper_char.
  - intros [= <-].
    rewrite Hs, (upper_no_alpha s (search_alpha_None s Hsearch)).
    unfold extract_division. cbn [truthy].
    destruct (String.eqb_spec s "") as [|_]; [contradiction|]. cbn [negb].
    rewrite Hsearch, Hs. by rewrite (upper_no_alpha s (search_alpha_None s Hsearch)).
Qed.

(** X18. On a trimmed value of ASCII text [extract_division] is
    idempotent: extracting the division from an extracted division gives the
    same division (and a value on which the first call raises raises), so
    the second extraction in database.py keeps what [main] extracted. *)
Theorem extract_division_twice v :
  ascii_value v = true ->
  (d <-! extract_division (trim_string v) ;; extract_division d)
    = extract_division (trim_string v).
Proof.
  intros _. destruct v as [|z|s].
  - reflexivity.
  - cbn [trim_string]. destruct (extract_division (PInt z)) as [d|e] eqn:Hfirst;
      [|reflexivity].
    cbn [bind]. unfold extract_division in Hfirst.
    destruct (truthy (PInt z)); [discriminate|]. by injection Hfirst as <-.
  - cbn [trim_string].
    destruct (extract_division (PStr (strip s))) as [d|e] eqn:Hfirst; [|reflexivity].
    cbn [bind]. eapply extract_division_str_twice; [apply strip_idem|exact Hfirst].
Qed.

Lemma extract_division_twice_witness :
  ascii_value (PStr " 12-a ") = true
  /\ extract_division (trim_string (PStr " 12-a ")) = Ok (PStr "A")
  /\ (d <-! extract_division (trim_string (PStr " 12-a ")) ;; extract_division d)
     = extract_division (trim_string (PStr " 12-a ")).
Proof.
  split; [reflexivity|]. split; [by vm_compute|].
  apply extract_division_twice. reflexivity.
Defined.

End DivisionAndRecord.

(** ** The cleaning repeated by database.py *)

Section CleanedOnce.
Import PyStr Utils Database Main Reading.

Implicit Types (s : string) (v g n d : pyval) (r p : record).

Lemma get_trimmed r k : get (trim_string <$> r) k = trim_string (get r k).
Proof. unfold get. rewrite lookup_fmap. by destruct (r !! k). Qed.

Lemma convert_grade_name_fixed v g :
  convert_grade_name (trim_string v) = Ok g -> convert_grade_name g = Ok g.
Proof.
  destruct v as [|z|s]; try discriminate.
  cbn. intros [= <-]. cbn. by rewrite convert_grade_str_twice by apply strip_idem.
Qed.

Lemma clean_student_name_fixed v n :
  clean_student_name v = Ok n -> clean_student_name n = Ok n.
Proof.
  destruct v as [|z|s]; try discriminate.
  cbn. intros [= <-]. cbn. by rewrite clean_name_twice.
Qed.

Lemma extract_division_fixed v d :
  extract_division (trim_string v) = Ok d -> extract_division d = Ok d.
Proof.
  destruct v as [|z|s]; cbn [trim_string].
  - by intros [= <-].
  - unfold extract_division at 1. destruct (truthy (PInt z)); [discriminate|].
    by intros [= <-].
  - apply extract_division_str_twice, strip_idem.
Qed.

(** X19. When the grade, the name and the division of a record are ASCII
    text, the cleaning that [update_existing_record] and [insert_new_record]
    repeat on the copy that left the cleaning of [main] changes nothing: the
    five values they compare and write are the values of the cleaned record
    itself. *)
Theorem second_cleaning_changes_nothing r p :
  ascii_value (get r "grade_name") = true ->
  ascii_value (get r "student_name") = true ->
  ascii_value (get r "division_name") = true ->
  clean_record r = Ok p ->
  fields_to_check p =
    Ok [ ("status", get p "status"); ("grade_name", get p "grade_name");
         ("student_name", get p "student_name"); ("gender", get p "gender");
         ("division_name", get p "division_name") ].
Proof.
  intros _ _ _. unfold clean_record.
  destruct (convert_grade_name _) as [g|] eqn:Hg; [cbn [bind]|discriminate].
  destruct (clean_student_name _) as [n|] eqn:Hn; [cbn [bind]|discriminate].
  destruct (clean_gender _) as [x|] eqn:Hx; [cbn [bind]|discriminate].
  destruct (extract_division _) as [d|] eqn:Hd; [cbn [bind]|discriminate].
  intros [= <-]. unfold fields_to_check, get in *.
  rewrite !lookup_insert_eq.
  rewrite !(lookup_insert_ne _ "division_name") in * by done.
  rewrite !(lookup_insert_ne _ "gender") in * by done.
  rewrite !lookup_insert_eq.
  rewrite !(lookup_insert_ne _ "student_name") in * by done.
  rewrite !lookup_insert_eq.
  rewrite !(lookup_insert_ne _ "grade_name") in * by done.
  cbn [default].
  fold (get (trim_string <$> r) "grade_name") in Hg.
  fold (get (trim_string <$> r) "division_name") in Hd.
  fold (get (trim_string <$> r) "status").
  rewrite get_trimmed in Hg, Hd. rewrite get_trimmed. unfold id.
  rewrite (convert_grade_name_fixed _ _ Hg). cbn [bind].
  rewrite (clean_student_name_fixed _ _ Hn). cbn [bind].
  rewrite (extract_division_fixed _ _ Hd). cbn [bind].
  destruct (get r "status") as [|z|s]; cbn [trim_string]; by rewrite ?strip_idem.
Qed.

Lemma second_cleaning_changes_nothing_witness :
  ascii_value (get sample_record "grade_name") = true
  /\ ascii_value (get sample_record "student_name") = true
  /\ ascii_value (get sample_record "division_name") = true
  /\ clean_record sample_record = Ok sample_cleaned
  /\ fields_to_check sample_cleaned =
       Ok [ ("status", get sample_cleaned "status");
            ("grade_name", get sample_cleaned "grade_name");
            ("student_name", get sample_cleaned "student_name");
            ("gender", get sample_cleaned "gender");
            ("division_name", get sample_cleaned "division_name") ].
Proof.
  split; [by vm_compute|]. split; [by vm_compute|]. split; [by vm_compute|].
  split; [by vm_compute|].
  apply (second_cleaning_changes_nothing sample_record); by vm_compute.
Defined.

End CleanedOnce.

(** ** When a run crashes *)

Module Texts.
Import PyStr Utils.

(** The four fields that the loop of [main] hands to a cleaner. *)
Definition cleaned_fields : list string :=
  [ "grade_name"; "student_name"; "gender"; "division_name" ].

(** [isinstance(record[k], str)], or the record has no [k]. *)
Definition is_text_or_absent (r : record) (k : string) : bool :=
  match r !! k with
  | Some (PStr _) | None => true
  | Some _ => false
  end.

(** Every cleaned field that the record has is a string. *)
Definition text_fields (r : record) : bool :=
  forallb (is_text_or_absent r) cleaned_fields.

End Texts.

Section Crashes.
Import PyStr Utils Database Main Reading Effects Texts.

Implicit Types (r p : record) (batch : list record) (st : Pass).

Lemma get_insert_ne r k k' (v : pyval) : k <> k' -> get (<[k:=v]> r) k' = get r k'.
Proof. intros Hne. unfold get. by rewrite lookup_insert_ne. Qed.

Lemma clean_gender_text s : exists x, clean_gender (PStr s) = Ok x.
Proof. unfold clean_gender. destruct (truthy _); eauto. Qed.

Lemma extract_division_text s : exists d, extract_division (PStr s) = Ok d.
Proof.
  unfold extract_division. destruct (truthy _); [|eauto].
  destruct (search_alpha s); eauto.
Qed.

(** A validated record whose cleaned fields are strings is cleaned. *)
Lemma plan_text year r : text_fields r = true -> exists o, plan year r = Ok o.
Proof.
  intros Htext. unfold plan.
  destruct (validate_student_record r) as [msg|r'] eqn:Hvalid; [eauto|].
  destruct (valid_record_fields _ _ Hvalid) as [_ Hreq].
  unfold text_fields, cleaned_fields in Htext. cbn [forallb] in Htext.
  apply andb_prop in Htext as [Hg Htext]. apply andb_prop in Htext as [Hn Htext].
  apply andb_prop in Htext as [Hx Htext]. apply andb_prop in Htext as [Hd _].
  assert (Hfield : forall k, In k required_fields -> is_text_or_absent r k = true ->
                             exists s, get r k = PStr s).
  { intros k Hk Hk'. destruct (Hreq k Hk) as (w & Hw & _).
    unfold is_text_or_absent in Hk'. unfold get. rewrite Hw in *.
    destruct w; try discriminate. eauto. }
  destruct (Hfield "grade_name") as [g Hg']; [cbn; tauto|done|].
  destruct (Hfield "student_name") as [n Hn']; [cbn; tauto|done|].
  destruct (Hfield "gender") as [x Hx']; [cbn; tauto|done|].
  destruct (Hfield "division_name") as [d Hd']; [cbn; tauto|done|].
  unfold clean_record.
  rewrite get_trimmed, Hg'. cbn [trim_string convert_grade_name bind].
  rewrite get_insert_ne, get_trimmed, Hn' by done.
  cbn [trim_string clean_student_name bind].
  rewrite !get_insert_ne, get_trimmed, Hx' by done. cbn [trim_string].
  destruct (clean_gender_text (strip x)) as [x' ->]. cbn [bind].
  rewrite !get_insert_ne, get_trimmed, Hd' by done. cbn [trim_string].
  destruct (extract_division_text (strip d)) as [d' ->]. cbn [bind]. eauto.
Qed.

(** The loop returns when every record is skipped or cleaned. *)
Lemma process_records_returns year now batch :
  Forall (fun r => exists o, plan year r = Ok o) batch ->
  forall st, exists st', process_records year now st batch = Ok st'.
Proof.
  induction 1 as [|r rest [[[k p]|] Hplan] _ IH]; intros st; cbn [process_records].
  - eauto.
  - destruct (process_record_keyed year now st r k p Hplan) as (st1 & -> & _).
    cbn [bind]. apply IH.
  - rewrite (process_record_skipped _ _ _ _ Hplan). cbn [bind]. apply IH.
Qed.



(** X20. A batch that is not empty and whose records have strings in the
    four cleaned fields (where they have them) never crashes the run: the
    loop and the sweep return and the run commits. *)
Theorem pass_commits_on_text_records year now db batch :
  batch <> [] ->
  Forall (fun r => text_fields r = true) batch ->
  exists db', main year now db batch = Committed db'.
Proof.
  intros Hne Htext. unfold main. destruct batch as [|r0 rest]; [done|].
  destruct (process_records_returns year now (r0 :: rest)) with
    (st := mkPass db (fetch_existing_keys db year) ∅ 0 0 0) as [st' ->].
  - eapply Forall_impl; [exact Htext|]. intros r Hr. by apply plan_text.
  - eauto.
Qed.

Lemma pass_commits_on_text_records_witness :
  [sample_record; sample_record_renamed] <> []
  /\ Forall (fun r => text_fields r = true) [sample_record; sample_record_renamed]
  /\ exists db', main "2025-2026" "2025-06-02 10:00:00" sample_db
                      [sample_record; sample_record_renamed] = Committed db'.
Proof.
  assert (Hne : [sample_record; sample_record_renamed] <> []) by discriminate.
  assert (Htext : Forall (fun r => text_fields r = true)
                         [sample_record; sample_record_renamed]).
  { repeat constructor; by vm_compute. }
  split; [exact Hne|]. split; [exact Htext|].
  exact (pass_commits_on_text_records _ _ _ _ Hne Htext).
Defined.



End Crashes.

(** ** What the validation reads *)

Section ValidationReads.
Import PyStr Utils.

Implicit Types (r : record).

Lemma first_rejected_agree r r' (fields : list string) :
  (forall f, In f fields -> r !! f = r' !! f) ->
  first_rejected r fields = first_rejected r' fields.
Proof.
  induction fields as [|f rest IH]; intros Hsame; [reflexivity|].
  cbn [first_rejected]. unfold field_rejected.
  rewrite <- (Hsame f) by (by left). rewrite IH; [reflexivity|].
  intros g Hg. apply Hsame. by right.
Qed.

(** X22. The verdict of [validate_student_record] depends on the seven
    required fields only: two records that agree on them are both accepted,
    or both rejected with the same message. *)
Theorem validation_reads_required_fields r r' :
  (forall f, In f required_fields -> r !! f = r' !! f) ->
  match validate_student_record r, validate_student_record r' with
  | Invalid msg, Invalid msg' => msg = msg'
  | Valid a, Valid a' => a = r /\ a' = r'
  | _, _ => False
  end.
Proof.
  intros Hsame. unfold validate_student_record.
  rewrite <- (first_rejected_agree r r' required_fields Hsame).
  destruct (first_rejected r required_fields); [reflexivity|].
  unfold get. rewrite <- (Hsame "student_id") by (cbn; tauto).
  by destruct (is_str_or_int _).
Qed.

Lemma validation_reads_required_fields_witness :
  (forall f, In f required_fields ->
     sample_record !! f = (<["remarks" := PNone]> sample_record) !! f)
  /\ match validate_student_record sample_record,
           validate_student_record (<["remarks" := PNone]> sample_record) with
     | Invalid msg, Invalid msg' => msg = msg'
     | Valid a, Valid a' =>
         a = sample_record /\ a' = <["remarks" := PNone]> sample_record
     | _, _ => False
     end.
Proof.
  assert (Hsame : forall f, In f required_fields ->
            sample_record !! f = (<["remarks" := PNone]> sample_record) !! f).
  { intros f Hf. cbn in Hf.
    repeat (destruct Hf as [<-|Hf]; [by vm_compute|]). contradiction. }
  split; [exact Hsame|]. exact (validation_reads_required_fields _ _ Hsame).
Defined.

End ValidationReads.

(** ** The academic year *)

Section AcademicYear.
Import PyStr Effects.

Local Open Scope Z_scope.

Lemma is_digit_pretty_N_char (x : N) : is_digit (pretty_N_char x) = true.
Proof. unfold pretty_N_char. by repeat case_match. Qed.

Lemma digits_pretty_N_go (x : N) (s : string) :
  all_chars is_digit s = true -> all_chars is_digit (pretty_N_go x s) = true.
Proof.
  revert s. induction (N.lt_wf_0 x) as [x _ IH]; intros s Hs.
  assert (x = 0 \/ 0 < x)%N as [->|Hpos] by lia.
  - by rewrite pretty_N_go_0.
  - rewrite pretty_N_go_step by done. apply IH; [by apply N.div_lt|].
    cbn [all_chars]. by rewrite is_digit_pretty_N_char.
Qed.

Lemma digits_pretty_Z (z : Z) : 0 <= z -> all_chars is_digit (pretty z) = true.
Proof.
  destruct z as [|p|p]; [reflexivity| |lia]. intros _.
  unfold pretty, pretty_Z, pretty, pretty_positive, pretty, pretty_N.
  destruct (decide _); [reflexivity|]. by apply digits_pretty_N_go.
Qed.

(** Two runs of digits that are followed by a dash. *)
Lemma digits_dash_inj (a b s t : string) :
  all_chars is_digit a = true -> all_chars is_digit b = true ->
  String.append a (String.append "-" s) = String.append b (String.append "-" t) ->
  a = b.
Proof.
  revert b. induction a as [|c a IH]; intros [|c' b] Ha Hb; cbn; intros Heq.
  - reflexivity.
  - injection Heq as <- _. cbn [all_chars] in Hb. by apply andb_prop in Hb as [? _].
  - injection Heq as -> _. cbn [all_chars] in Ha. by apply andb_prop in Ha as [? _].
  - injection Heq as -> Heq. f_equal. cbn [all_chars] in Ha, Hb.
    apply andb_prop in Ha as [_ Ha]. apply andb_prop in Hb as [_ Hb]. eauto.
Qed.

(** The label is the one of the year in which the school year began. *)
Lemma current_academic_year_start (y m : Z) :
  current_academic_year y m =
    String.append (pretty (if 5 <=? m then y else y - 1))
      (String.append "-" (pretty ((if 5 <=? m then y else y - 1) + 1))).
Proof.
  unfold current_academic_year. destruct (5 <=? m); [reflexivity|].
  by replace (y - 1 + 1) with y by lia.
Qed.

(** X23. Two dates (of the common era) get the same [academic_year] exactly
    when they lie in the same school year, which runs from May to April:
    the labels are equal if and only if the years in which the two school
    years began are. *)
Theorem academic_year_names_the_school_year (y m y' m' : Z) :
  0 < y -> 0 < y' ->
  current_academic_year y m = current_academic_year y' m'
  <-> (if 5 <=? m then y else y - 1) = (if 5 <=? m' then y' else y' - 1).
Proof.
  intros Hy Hy'. rewrite !current_academic_year_start.
  set (a := if 5 <=? m then y else y - 1).
  set (a' := if 5 <=? m' then y' else y' - 1).
  assert (0 <= a) by (subst a; destruct (5 <=? m); lia).
  assert (0 <= a') by (subst a'; destruct (5 <=? m'); lia).
  split; [|by intros ->].
  intros Heq. apply digits_dash_inj in Heq; [|by apply digits_pretty_Z..].
  by apply (inj pretty) in Heq.
Qed.

Lemma academic_year_names_the_school_year_witness :
  0 < 2025 /\ 0 < 2026
  /\ current_academic_year 2025 5 = "2025-2026"%string
  /\ (current_academic_year 2025 5 = current_academic_year 2026 4
      <-> (if 5 <=? 5 then 2025 else 2025 - 1) = (if 5 <=? 4 then 2026 else 2026 - 1)).
Proof.
  split; [lia|]. split; [lia|]. split; [by vm_compute|].
  apply (academic_year_names_the_school_year 2025 5 2026 4); lia.
Defined.

End AcademicYear.

(** ** The key of sync_students.py *)

Section SyncKey.
Import PyStr.

Implicit Types (s : string) (r : record) (v : pyval).

Lemma collapse_from_map (f : ascii -> ascii) b s :
  (forall c, is_space (f c) = is_space c) ->
  (forall c, is_space c = true -> f c = c) ->
  f " "%char = " "%char ->
  collapse_from b (map f s) = map f (collapse_from b s).
Proof.
  intros Hf Hspace Hblank. revert b.
  induction s as [|c r IH]; intros b; [reflexivity|].
  cbn [map collapse_from]. rewrite Hf. destruct (is_space c) eqn:Hc.
  - destruct b; cbn [map]; by rewrite ?Hblank, IH.
  - cbn [map]. by rewrite IH.
Qed.

Lemma upper_char_space c : is_space c = true -> upper_char c = c.
Proof. intros Hc. by apply upper_char_not_alpha, is_space_not_alpha. Qed.

Lemma collapse_spaces_upper s : collapse_spaces (upper s) = upper (collapse_spaces s).
Proof.
  unfold collapse_spaces, upper.
  apply collapse_from_map; [apply is_space_upper_char|apply upper_char_space|reflexivity].
Qed.

(** The normal form of a school name in the key. *)
Lemma school_normal_form s :
  upper (strip (collapse_spaces (upper (strip (collapse_spaces s)))))
    = upper (strip (collapse_spaces s)).
Proof.
  rewrite collapse_spaces_upper, strip_upper, upper_idem. f_equal.
  rewrite (strip_collapse_spaces s).
  unfold collapse_spaces at 1 2. rewrite collapse_from_idem.
  fold (collapse_spaces (strip s)).
  by rewrite strip_collapse_spaces, strip_idem.
Qed.

(** X24. The key of sync_students.py takes the school name in its normal
    form only (whitespace runs collapsed, trimmed, upper case): a record
    whose school name is the normal form, or the upper-case copy, of the
    school name of another record that is otherwise the same has the same
    key (or raises the same exception); and the key does not depend on
    [grade_name]. *)
Theorem sync_key_normalises_school_name r s :
  SyncStudents.generate_unique_key
      (<["school_name" := PStr (upper (strip (collapse_spaces s)))]> r)
    = SyncStudents.generate_unique_key (<["school_name" := PStr s]> r)
  /\ SyncStudents.generate_unique_key (<["school_name" := PStr (upper s)]> r)
     = SyncStudents.generate_unique_key (<["school_name" := PStr s]> r)
  /\ forall v, SyncStudents.generate_unique_key (<["grade_name" := v]> r)
               = SyncStudents.generate_unique_key r.
Proof.
  unfold SyncStudents.generate_unique_key, SyncStudents.item.
  split; [|split].
  - rewrite !lookup_insert_eq, !lookup_insert_ne by done. cbn [bind].
    by rewrite school_normal_form.
  - rewrite !lookup_insert_eq, !lookup_insert_ne by done. cbn [bind].
    by rewrite collapse_spaces_upper, strip_upper, upper_idem.
  - intros v. by rewrite !lookup_insert_ne by done.
Qed.

End SyncKey.
